(** * zone_visits_tracking: the table builder and the fetcher of [main.py]

    A shallow embedding of [src/main.py] and the properties of its
    specification.

    Conventions of the embedding.
    - A Python [str] is a Rocq [string], the bytes of its UTF-8 encoding.
      Python orders strings by code point; UTF-8 keeps that order, so the
      byte-wise lexicographic order [String.leb] is the order [sorted] uses.
    - A [dict] is a [gmap], a [set] a [gset]: the program only looks keys up,
      or sorts what it iterates over, so insertion order is never observed.
    - Logging, the HTTP request, console output, [sys.exit] and exceptions are
      explicit: a computation is a trace of events and an outcome ([Run]).
    - JSON numbers are integers; floating-point numbers are outside the model.
    - The response handed to [create_visitors_table] has the shape the program
      indexes without a guard: [picker_date], [data], the positions 0 and 3 of
      a zone record and 0, 1, 2 of a time slot are always there.  Only
      [selected] is read through [dict.get] with a default, so only that key
      is optional in [Visitors].  The unguarded accesses themselves, and what
      they raise on a body of another shape, are followed on the decoded body
      in [create_visitors_table_json]. *)

From Stdlib Require Import ZArith String Ascii.
From stdpp Require Import base option list gmap sets strings sorting pretty.

Open Scope list_scope.

(** ** Python run-time: exceptions, outcomes, events *)

Inductive Level := INFO | WARNING | CRITICAL.

(** The exceptions the modelled code can meet; all are subclasses of
    [Exception]. *)
Inductive Exn :=
  | RequestError (what : string)   (* requests: connection failure, timeout *)
  | HTTPError (status : Z)         (* raise_for_status *)
  | JSONDecodeError                (* response.json() on a body that is not JSON *)
  | AssertionError (msg : string)
  | TypeError
  | KeyError (key : string)
  | IndexError.

(** How a call ends: it returns, [sys.exit(code)] unwinds the process
    ([SystemExit] is not an [Exception], so [except Exception] lets it pass),
    or an exception propagates. *)
Inductive Outcome (A : Type) :=
  | Return (a : A)
  | SystemExit (code : Z)
  | Raise (e : Exn).
Arguments Return {A} a.
Arguments SystemExit {A} code.
Arguments Raise {A} e.

(** ** JSON values, as [response.json()] decodes them *)

(* No induction over JSON documents is needed: the fetcher only inspects the
   top of the decoded body. *)
Unset Elimination Schemes.
Inductive json :=
  | JNull
  | JBool (b : bool)
  | JNum (n : Z)
  | JStr (s : string)
  | JArr (items : list json)
  | JObj (fields : gmap string json).
Set Elimination Schemes.

(** ** The data model *)

(** class Metric(StrEnum): ENTRIES = auto(); EXITS = auto() *)
Inductive Metric := ENTRIES | EXITS.

(** [auto()] in a [StrEnum] gives the lower-cased member name. *)
Definition metric_value (metric : Metric) : string :=
  match metric with ENTRIES => "entries" | EXITS => "exits" end.

(** A row of the reference sheet: the columns "GUID" and "Наименование".
    An empty GUID cell is read as the missing value (NaN): [None]. *)
Record RefRow := { GUID : option string; Name : string }.

(** A time slot [[timeLabel, entries, exits]]. *)
Record Slot := { slot_time : string; slot_entries : Z; slot_exits : Z }.

(** A zone record [[guid, _, _, timeSlots]]; positions 1 and 2 are never
    read. *)
Record Zone := { zone_guid : string; zone_slots : list Slot }.

Record Visitors := {
  picker_date : string;
  selected : option (list string);   (* None: the key is absent *)
  data : list Zone
}.

(** ** rich.table.Table, as far as the program drives it *)

Record Column := { header : string; style : string; justify : string }.

Record Table := {
  title : string;
  columns : list Column;
  rows : list (list string)
}.

Definition Table_new (title : string) : Table :=
  {| title := title; columns := []; rows := [] |}.

Definition add_column (table : Table) (header style justify : string) : Table :=
  {| title := title table;
     columns := columns table ++ [{| header := header; style := style; justify := justify |}];
     rows := rows table |}.

Definition add_row (table : Table) (cells : list string) : Table :=
  {| title := title table;
     columns := columns table;
     rows := rows table ++ [cells] |}.

(** One turn of a loop that fills a dict: d[key(x)] = val(x), for the items
    the loop keeps.  Both dicts of the program are filled this way. *)
Definition dict_put `{Countable K} {A V : Type} (key : A → K) (val : A → V)
    (keep : A → bool) (m : gmap K V) (x : A) : gmap K V :=
  if keep x then <[key x := val x]> m else m.

(** ** Events and the [Run] monad *)

Record Request := {
  url : string;
  params : list (string * string);
  timeout : Z
}.

(** What a log line interpolates besides plain strings; [text] marks the
    place with {}. *)
Inductive LogArg :=
  | NoArg
  | ExnArg (e : Exn)              (* the caught exception *)
  | GuidsArg (s : gset string).   (* a set of identifiers *)

Inductive Event :=
  | Log (level : Level) (text : string) (arg : LogArg)
  | HttpGet (req : Request)
  | ConsolePrint (table : Table).

Definition Run (A : Type) : Type := list Event * Outcome A.

Definition run_ret {A} (a : A) : Run A := ([], Return a).

Definition run_bind {A B} (k : A → Run B) (m : Run A) : Run B :=
  match m with
  | (tr, Return a) => let '(tr', o) := k a in (tr ++ tr', o)
  | (tr, SystemExit code) => (tr, SystemExit code)
  | (tr, Raise e) => (tr, Raise e)
  end.

#[global] Instance Run_ret : MRet Run := @run_ret.
#[global] Instance Run_bind : MBind Run := @run_bind.

Definition emit (ev : Event) : Run unit := ([ev], Return tt).
Definition logging (level : Level) (text : string) (arg : LogArg) : Run unit :=
  emit (Log level text arg).
Definition sys_exit {A} (code : Z) : Run A := ([], SystemExit code).
Definition raise {A} (e : Exn) : Run A := ([], Raise e).
Definition lift {A} (o : Outcome A) : Run A := ([], o).

(** try: body / except Exception as e: handler e *)
Definition try_except {A} (body : Run A) (handler : Exn → Run A) : Run A :=
  match body with
  | (tr, Raise e) => let '(tr', o) := handler e in (tr ++ tr', o)
  | done => done
  end.

(** assert cond, msg *)
Definition py_assert (cond : bool) (msg : string) : Run unit :=
  if cond then mret tt else raise (AssertionError msg).

Definition events {A} (r : Run A) : list Event := r.1.
Definition outcome {A} (r : Run A) : Outcome A := r.2.

(** ** The HTTP client (requests), as an oracle

    The network is a function from the request to what comes back; the call
    of [requests.get], with its arguments, is recorded in the trace. *)

Record Response := {
  status_code : Z;
  body : option json   (* None: the body is not a JSON document *)
}.

Inductive HttpReply :=
  | Failed (what : string)      (* the client raised: no connection, timeout,
                                   a URL it refuses *)
  | Replied (resp : Response).

Definition Server : Type := Request → HttpReply.

(** requests.get(url, params=params, timeout=timeout) *)
Definition requests_get (server : Server) (url : string)
    (params : list (string * string)) (timeout : Z) : Run Response :=
  let req := {| url := url; params := params; timeout := timeout |} in
  emit (HttpGet req);;
  match server req with
  | Failed what => raise (RequestError what)
  | Replied resp => mret resp
  end.

(** response.raise_for_status(): statuses 400..599 raise. *)
Definition raise_for_status (resp : Response) : Run unit :=
  if bool_decide (400 ≤ status_code resp < 600)%Z
  then raise (HTTPError (status_code resp))
  else mret tt.

(** response.json() *)
Definition response_json (resp : Response) : Run json :=
  match body resp with
  | Some doc => mret doc
  | None => raise JSONDecodeError
  end.

(** ** Python operators on decoded JSON *)

(** [needle in hay] on strings: substring test. *)
Fixpoint substringb (needle hay : string) : bool :=
  String.prefix needle hay ||
  match hay with
  | EmptyString => false
  | String _ rest => substringb needle rest
  end.

Definition is_str (s : string) (v : json) : bool :=
  match v with JStr s' => bool_decide (s = s') | _ => false end.

(** [key in obj] for a string [key]: key of a dict, element of a list,
    substring of a string; the other values are not containers. *)
Definition py_in (key : string) (obj : json) : Run bool :=
  match obj with
  | JObj fields => mret (bool_decide (is_Some (fields !! key)))
  | JArr items => mret (existsb (is_str key) items)
  | JStr s => mret (substringb key s)
  | JNull | JBool _ | JNum _ => raise TypeError
  end.

(** [obj[key]] for a string [key]. *)
Definition py_getitem (obj : json) (key : string) : Run json :=
  match obj with
  | JObj fields =>
      match fields !! key with
      | Some v => mret v
      | None => raise (KeyError key)
      end
  | _ => raise TypeError
  end.

(** isinstance(v, list) *)
Definition is_list (v : json) : bool :=
  match v with JArr _ => true | _ => false end.

(** Truth value of a JSON value ([not v] is its negation). *)
Definition py_truthy (v : json) : bool :=
  match v with
  | JNull => false
  | JBool b => b
  | JNum n => negb (n =? 0)%Z
  | JStr s => negb (bool_decide (s = ""))
  | JArr items => negb (bool_decide (items = []))
  | JObj fields => negb (bool_decide (fields = ∅))
  end.

(** ** fetch_visitors_data (main.py, lines 40-62) *)

Definition chart_params (date : string) (guids : list string) : list (string * string) :=
  [ ("mode", "halfhour");
    ("date", date);
    ("objects", String.concat "," guids) ].

Definition fetch_visitors_data (server : Server)
    (api_host date : string) (guids : list string) : Run json :=
  logging INFO ("Запрос данных о посещениях с " +:+ api_host +:+ " на дату " +:+ date) NoArg;;
  try_except
    (let base_url := "http://" +:+ api_host +:+ "/borders/chart-data" in
     let params := chart_params date guids in
     response ← requests_get server base_url params 10;
     raise_for_status response;;
     data ← response_json response;
     has_data ← py_in "data" data;
     (* [and] evaluates its right operand only when the left one holds *)
     shape_ok ← (if has_data : bool
                 then (v ← py_getitem data "data"; mret (is_list v))
                 else mret false);
     py_assert shape_ok "Ответ API должен содержать ключ 'data' с массивом значений";;
     v ← py_getitem data "data";
     if negb (py_truthy v)
     then logging CRITICAL "Сервер вернул пустой список 'data'" NoArg;; sys_exit 1
     else mret data)
    (λ e, logging CRITICAL "Ошибка при запросе API: {}" (ExnArg e);; sys_exit 1).

(** ** create_visitors_table (main.py, lines 65-104) *)

(** dict(zip(reference["GUID"], reference["Наименование"])): every row is
    entered under its GUID cell, a later row replacing an earlier one with the
    same key.  The cells are taken as they are, the missing value included. *)
Definition guid_to_name (reference : list RefRow) : gmap (option string) string :=
  foldl (λ m row, <[GUID row := Name row]> m) ∅ reference.

(** guid_to_name.get(guid, guid) *)
Definition zone_name (names : gmap (option string) string) (guid : string) : string :=
  default guid (names !! Some guid).

(** { zone[0]: zone[3] for zone in visitors["data"] if zone[0] in zone_guids } *)
Definition guid_data_map (zone_guids : list string) (data : list Zone)
    : gmap string (list Slot) :=
  foldl (λ m zone,
           if bool_decide (zone_guid zone ∈ zone_guids)
           then <[zone_guid zone := zone_slots zone]> m
           else m)
        ∅ data.

(** for time_slots in guid_data_map.values():
        for slot in time_slots: time_slots_set.add(slot[0]) *)
Definition add_slots (acc : gset string) (time_slots : list Slot) : gset string :=
  foldl (λ s slot, {[slot_time slot]} ∪ s) acc time_slots.

Definition time_slots_set (m : gmap string (list Slot)) : gset string :=
  map_fold (λ _ time_slots acc, add_slots acc time_slots) ∅ m.

(** The order of [sorted] on strings. *)
Definition string_le (x y : string) : Prop := String.leb x y = true.

#[global] Instance string_le_dec x y : Decision (string_le x y).
Proof. unfold string_le. apply _. Defined.

(** sorted(time_slots_set) *)
Definition sorted (s : gset string) : list string :=
  merge_sort string_le (elements s).

(** str(n) for an int *)
Definition str (n : Z) : string := pretty n.

(** value = "0"
    for slot in slots:
        if slot[0] == time:
            value = str(slot[1]) if metric == Metric.ENTRIES else str(slot[2])
            break *)
Fixpoint scan_slots (metric : Metric) (time : string) (slots : list Slot)
    (value : string) : string :=
  match slots with
  | [] => value
  | slot :: rest =>
      if bool_decide (slot_time slot = time)
      then match metric with
           | ENTRIES => str (slot_entries slot)
           | EXITS => str (slot_exits slot)
           end
      else scan_slots metric time rest value
  end.

(** f"[dim]{value}[/]" if value == "0" else value *)
Definition dim_zero (value : string) : string :=
  if bool_decide (value = "0") then "[dim]" +:+ value +:+ "[/]" else value.

(** The cell appended to row_data for one guid (lines 96-101). *)
Definition cell (metric : Metric) (m : gmap string (list Slot))
    (time guid : string) : string :=
  dim_zero (scan_slots metric time (default [] (m !! guid)) "0").

(** row_data for one time label (lines 94-101). *)
Definition row_data (metric : Metric) (m : gmap string (list Slot))
    (zone_guids : list string) (time : string) : list string :=
  foldl (λ row guid, row ++ [cell metric m time guid]) [time] zone_guids.

Definition create_visitors_table (reference : list RefRow) (visitors : Visitors)
    (metric : Metric) : Run Table :=
  let table := Table_new ("Посещения зон (" +:+ metric_value metric +:+ ") за "
                          +:+ picker_date visitors) in
  let table := add_column table "Время" "cyan" "center" in
  let names := guid_to_name reference in
  let zone_guids := default [] (selected visitors) in
  if bool_decide (zone_guids = [])
  then logging CRITICAL "Список 'selected' пуст. Нет выбранных зон." NoArg;; sys_exit 1
  else
    let table :=
      foldl (λ t guid, add_column t (zone_name names guid) "magenta" "center")
            table zone_guids in
    let m := guid_data_map zone_guids (data visitors) in
    let sorted_times := sorted (time_slots_set m) in
    let table :=
      foldl (λ t time, add_row t (row_data metric m zone_guids time))
            table sorted_times in
    mret table.

(** ** main (main.py, lines 130-145) *)

(** reference["GUID"].dropna().astype(str).tolist(): the identifiers sent to
    the API (line 135). *)
Definition api_guids (reference : list RefRow) : list string :=
  omap GUID reference.

(** Lines 138-145: what main does with the fetched response. *)
Definition main_report (reference : list RefRow) (visitors : Visitors)
    (metric : Metric) : Run unit :=
  selected_list ← match selected visitors with
                  | Some l => mret l
                  | None => raise (KeyError "selected")
                  end;
  let selected_guids : gset string := list_to_set selected_list in
  let reference_guids : gset (option string) := list_to_set (GUID <$> reference) in
  let missing_guids := filter (λ g, Some g ∉ reference_guids) selected_guids in
  (if bool_decide (missing_guids = ∅)
   then mret tt
   else logging WARNING "Зоны с GUID {} отсутствуют в справочнике" (GuidsArg missing_guids));;
  table ← create_visitors_table reference visitors metric;
  emit (ConsolePrint table).

(** ** The scenario of the specification *)

Definition scenario_reference : list RefRow :=
  [ {| GUID := Some "A"; Name := "Zone A" |} ].

Definition scenario_visitors : Visitors :=
  {| picker_date := "12.06.2020";
     selected := Some ["A"];
     data := [ {| zone_guid := "A";
                  zone_slots := [ {| slot_time := "00:00"; slot_entries := 5; slot_exits := 2 |};
                                  {| slot_time := "00:30"; slot_entries := 0; slot_exits := 0 |} ] |} ] |}.

(** A response with an identifier unknown to the reference, a zone outside
    the selection, two records for one zone and a repeated time label; the
    reference has a row without GUID and two rows for one GUID. *)
Definition sample_reference : list RefRow :=
  [ {| GUID := Some "A"; Name := "Zone A" |};
    {| GUID := None; Name := "Lobby" |};
    {| GUID := Some "A"; Name := "Hall A" |};
    {| GUID := Some "B"; Name := "Zone B" |} ].

Definition sample_slots : list Slot :=
  [ {| slot_time := "01:00"; slot_entries := 5; slot_exits := 2 |};
    {| slot_time := "00:00"; slot_entries := 0; slot_exits := 7 |};
    {| slot_time := "01:00"; slot_entries := 8; slot_exits := 8 |} ].

Definition sample_zone : Zone := {| zone_guid := "A"; zone_slots := sample_slots |}.

Definition sample_data : list Zone :=
  [ {| zone_guid := "A";
       zone_slots := [ {| slot_time := "00:30"; slot_entries := 1; slot_exits := 1 |} ] |};
    {| zone_guid := "Z";
       zone_slots := [ {| slot_time := "23:00"; slot_entries := 9; slot_exits := 9 |} ] |};
    sample_zone;
    {| zone_guid := "B";
       zone_slots := [ {| slot_time := "00:00"; slot_entries := 3; slot_exits := 0 |} ] |} ].

Definition sample_visitors : Visitors :=
  {| picker_date := "12.06.2020";
     selected := Some ["B"; "X"; "A"];
     data := sample_data |}.

(** ** Responses as JSON documents

    The document of a response of the shape above, as the API sends it:
    { "picker_date": ..., "selected": [...], "data": [[guid, 0, 0, [[time,
    entries, exits], ...]], ...] }. *)

Definition encode_slot (slot : Slot) : json :=
  JArr [JStr (slot_time slot); JNum (slot_entries slot); JNum (slot_exits slot)].

Definition encode_zone (zone : Zone) : json :=
  JArr [JStr (zone_guid zone); JNum 0; JNum 0; JArr (encode_slot <$> zone_slots zone)].

Definition encode_visitors (visitors : Visitors) : json :=
  let fields : gmap string json :=
    <["picker_date" := JStr (picker_date visitors)]>
      (<["data" := JArr (encode_zone <$> data visitors)]> ∅) in
  JObj match selected visitors with
       | Some zone_guids => <["selected" := JArr (JStr <$> zone_guids)]> fields
       | None => fields
       end.

(** A server that answers every request with status 200 and the given
    document. *)
Definition server_replying (doc : json) : Server :=
  λ _, Replied {| status_code := 200; body := Some doc |}.

(** ** Vocabulary of the specification *)

(** The count a slot holds for the requested metric: index 1 of the triple
    for entries, index 2 for exits. *)
Definition metric_field (metric : Metric) (slot : Slot) : Z :=
  match metric with
  | ENTRIES => slot_entries slot
  | EXITS => slot_exits slot
  end.

(** [zone] is the last record of [data] for the identifier [guid]. *)
Definition last_record (data : list Zone) (guid : string) (zone : Zone) : Prop :=
  ∃ pre post, data = pre ++ zone :: post ∧ zone_guid zone = guid ∧
              Forall (λ z, zone_guid z ≠ guid) post.

(** [slot] is the first slot of [slots] whose label is [time]. *)
Definition first_slot (slots : list Slot) (time : string) (slot : Slot) : Prop :=
  ∃ pre post, slots = pre ++ slot :: post ∧ slot_time slot = time ∧
              Forall (λ s, slot_time s ≠ time) pre.

(** [row] is the last row of the reference whose GUID cell is [guid]. *)
Definition last_row (reference : list RefRow) (guid : string) (row : RefRow) : Prop :=
  ∃ pre post, reference = pre ++ row :: post ∧ GUID row = Some guid ∧
              Forall (λ r, GUID r ≠ Some guid) post.

(** The cell in row [i], column [j] of a table (column 0 is the time). *)
Definition table_cell (table : Table) (i j : nat) : option string :=
  row ← rows table !! i; row !! j.

(** The time label of every row, top to bottom. *)
Definition row_labels (table : Table) : list (option string) :=
  head <$> rows table.

Definition time_column : Column :=
  {| header := "Время"; style := "cyan"; justify := "center" |}.

Definition zone_column (name : string) : Column :=
  {| header := name; style := "magenta"; justify := "center" |}.

(** The reference without the rows whose GUID cell is empty. *)
Definition dropna (reference : list RefRow) : list RefRow :=
  filter (λ row, is_Some (GUID row)) reference.

(** The value under the key [data] of a decoded body, when the body is an
    object that has the key. *)
Definition data_of (doc : json) : option json :=
  match doc with
  | JObj fields => fields !! "data"
  | _ => None
  end.

Definition is_http_get (ev : Event) : bool :=
  match ev with HttpGet _ => true | _ => false end.

Definition is_console_print (ev : Event) : bool :=
  match ev with ConsolePrint _ => true | _ => false end.

(** The request the fetcher is specified to send. *)
Definition chart_request (api_host date : string) (guids : list string) : Request :=
  {| url := "http://" +:+ api_host +:+ "/borders/chart-data";
     params := [ ("mode", "halfhour"); ("date", date);
                 ("objects", String.concat "," guids) ];
     timeout := 10 |}.

(** The traces of the fetcher: its first log line, and the two ways it ends
    the process. *)
Definition fetch_info (api_host date : string) : Event :=
  Log INFO ("Запрос данных о посещениях с " +:+ api_host +:+ " на дату " +:+ date) NoArg.

Definition fetch_failure (api_host date : string) (guids : list string) (e : Exn)
    : Run json :=
  ([fetch_info api_host date; HttpGet (chart_request api_host date guids);
    Log CRITICAL "Ошибка при запросе API: {}" (ExnArg e)],
   SystemExit 1).

Definition fetch_empty_data (api_host date : string) (guids : list string) : Run json :=
  ([fetch_info api_host date; HttpGet (chart_request api_host date guids);
    Log CRITICAL "Сервер вернул пустой список 'data'" NoArg],
   SystemExit 1).

Definition empty_selection : Event :=
  Log CRITICAL "Список 'selected' пуст. Нет выбранных зон." NoArg.

(** ** load_reference_data (main.py, lines 26-37) and the head of main

    The sheet as pandas hands it over: the names of its columns, and of
    every row the cells the program reads (the columns "GUID" and
    "Наименование"; when one of them is absent the program never gets as far
    as reading a cell).  [pd.read_excel] is an oracle from the path to a
    frame or to the exception it raises. *)

Record DataFrame := {
  df_columns : list string;
  df_rows : list RefRow
}.

Inductive ReadResult :=
  | ReadFailed (e : Exn)       (* read_excel raised e *)
  | Sheet (df : DataFrame).

Definition load_reference_data (read_excel : string → ReadResult)
    (file_path : string) : Run DataFrame :=
  logging INFO ("Загрузка справочника из " +:+ file_path) NoArg;;
  try_except
    (df ← match read_excel file_path with
          | ReadFailed e => raise e
          | Sheet df => mret df
          end;
     py_assert (bool_decide ("GUID" ∈ df_columns df)
                && bool_decide ("Наименование" ∈ df_columns df))
               "Справочник должен содержать столбцы 'GUID' и 'Наименование'";;
     mret df)
    (λ e, logging CRITICAL "Ошибка загрузки справочника: {}" (ExnArg e);; sys_exit 1).

(** Lines 134-136 of main: load the reference, list its identifiers, fetch. *)
Definition main_fetch (read_excel : string → ReadResult) (server : Server)
    (reference_file api_host date : string) : Run (DataFrame * json) :=
  reference ← load_reference_data read_excel reference_file;
  let guids := api_guids (df_rows reference) in
  visitors ← fetch_visitors_data server api_host date guids;
  mret (reference, visitors).

Definition load_info (file_path : string) : Event :=
  Log INFO ("Загрузка справочника из " +:+ file_path) NoArg.

Definition load_failure (file_path : string) (e : Exn) : Run DataFrame :=
  ([load_info file_path; Log CRITICAL "Ошибка загрузки справочника: {}" (ExnArg e)],
   SystemExit 1).

Definition columns_missing : Exn :=
  AssertionError "Справочник должен содержать столбцы 'GUID' и 'Наименование'".

Definition data_malformed : Exn :=
  AssertionError "Ответ API должен содержать ключ 'data' с массивом значений".

(** A response with another [data], or another [selected]. *)
Definition with_data (visitors : Visitors) (data : list Zone) : Visitors :=
  {| picker_date := picker_date visitors; selected := selected visitors; data := data |}.

Definition with_selected (visitors : Visitors) (zone_guids : list string) : Visitors :=
  {| picker_date := picker_date visitors; selected := Some zone_guids;
     data := data visitors |}.

(** The records of [data] whose identifier is selected. *)
Definition selected_records (zone_guids : list string) (data : list Zone) : list Zone :=
  filter (λ zone, zone_guid zone ∈ zone_guids) data.



(** A sheet with the two columns and the sample rows, and file systems that
    hold one sheet or none. *)
Definition sample_frame : DataFrame :=
  {| df_columns := ["GUID"; "Наименование"; "Этаж"]; df_rows := sample_reference |}.

Definition disk_with (df : DataFrame) : string → ReadResult := λ _, Sheet df.

Definition disk_failing (e : Exn) : string → ReadResult := λ _, ReadFailed e.

(** The sample records with one record per zone, in two orders. *)
Definition sample_zone_B : Zone :=
  {| zone_guid := "B";
     zone_slots := [ {| slot_time := "00:00"; slot_entries := 3; slot_exits := 0 |} ] |}.

Definition sample_zone_Z : Zone :=
  {| zone_guid := "Z";
     zone_slots := [ {| slot_time := "23:00"; slot_entries := 9; slot_exits := 9 |} ] |}.

Definition sample_unique : Visitors :=
  {| picker_date := "12.06.2020";
     selected := Some ["B"; "X"; "A"];
     data := [sample_zone_Z; sample_zone; sample_zone_B] |}.

(** Servers that give no reply, or reply with a given status. *)
Definition server_down (what : string) : Server := λ _, Failed what.

Definition server_status (status : Z) (content : option json) : Server :=
  λ _, Replied {| status_code := status; body := content |}.

(** ** The builder and main on the decoded body itself

    main hands the builder the body as the fetcher returned it, and the
    fetcher has checked [data] only.  Here the builder runs on that body,
    every key and position it reads being looked up as Python does: a key
    that is absent raises KeyError, a position past the end of a list
    IndexError, indexing or iterating null, a boolean or a number TypeError,
    and so does a list or a dict used as a key.

    A run is [None] where Python takes a path this embedding does not
    follow: the text of a list or a dict, iteration over a str or a dict,
    indexing a str or a dict by position, and a header, a time label or a
    count that is not of the documented type. *)

Definition done {A} (a : A) : option (Run A) := Some (mret a).

Definition fail {A} (e : Exn) : option (Run A) := Some (raise e).

Definition follow {A B} (m : option (Run A)) (k : A → option (Run B))
    : option (Run B) :=
  match m with
  | None => None
  | Some (tr, Return a) =>
      match k a with
      | None => None
      | Some (tr', o) => Some (tr ++ tr', o)
      end
  | Some (tr, SystemExit code) => Some (tr, SystemExit code)
  | Some (tr, Raise e) => Some (tr, Raise e)
  end.

Notation "'let*' x := m 'in' k" := (follow m (λ x, k))
  (at level 10, x name, m at level 100, k at level 200).

(** for x in l: f(x), collecting the results *)
Fixpoint each {A B} (f : A → option (Run B)) (l : list A) : option (Run (list B)) :=
  match l with
  | [] => done []
  | x :: rest => let* y := f x in let* ys := each f rest in done (y :: ys)
  end.

(** str(v), also the text of v in an f-string *)
Definition py_text (v : json) : option string :=
  match v with
  | JStr s => Some s
  | JNum n => Some (str n)
  | JNull => Some "None"
  | JBool true => Some "True"
  | JBool false => Some "False"
  | JArr _ | JObj _ => None
  end.

(** for ... in v *)
Definition py_iter (v : json) : option (Run (list json)) :=
  match v with
  | JArr items => done items
  | JNull | JBool _ | JNum _ => fail TypeError
  | JStr _ | JObj _ => None
  end.

(** v[i] for a position i *)
Definition py_item (v : json) (i : nat) : option (Run json) :=
  match v with
  | JArr items =>
      match items !! i with
      | Some item => done item
      | None => fail IndexError
      end
  | JNull | JBool _ | JNum _ => fail TypeError
  | JStr _ | JObj _ => None
  end.

(** v as the key of a dict or the member of a set: it is hashed *)
Definition py_key (v : json) : option (Run string) :=
  match v with
  | JStr s => done s
  | JArr _ | JObj _ => fail TypeError
  | JNull | JBool _ | JNum _ => None
  end.

(** A dict with its order of insertion: d[k] = v keeps the place of a key
    that is already there. *)
Fixpoint dict_set {V} (k : string) (v : V) (d : list (string * V)) : list (string * V) :=
  match d with
  | [] => [(k, v)]
  | (k', v') :: rest =>
      if bool_decide (k = k') then (k, v) :: rest else (k', v') :: dict_set k v rest
  end.

Fixpoint dict_lookup {V} (k : string) (d : list (string * V)) : option V :=
  match d with
  | [] => None
  | (k', v') :: rest => if bool_decide (k = k') then Some v' else dict_lookup k rest
  end.

(** { zone[0]: zone[3] for zone in zones if zone[0] in zone_guids }, the
    identifiers of [zone_guids] being strings: an item that is not a string
    equals none of them. *)
Fixpoint collect_zones (zone_guids : list string) (zones : list json)
    (d : list (string * json)) : option (Run (list (string * json))) :=
  match zones with
  | [] => done d
  | zone :: rest =>
      let* guid := py_item zone 0 in
      match guid with
      | JStr g =>
          if bool_decide (g ∈ zone_guids)
          then let* time_slots := py_item zone 3 in
               collect_zones zone_guids rest (dict_set g time_slots d)
          else collect_zones zone_guids rest d
      | _ => collect_zones zone_guids rest d
      end
  end.

(** for slot in time_slots: time_slots_set.add(slot[0]); the slot is kept
    with its label. *)
Definition read_slot (slot : json) : option (Run (string * json)) :=
  let* label := py_item slot 0 in
  let* time := py_key label in
  done (time, slot).

Definition read_series (entry : string * json)
    : option (Run (string * list (string * json))) :=
  let* slots := py_iter entry.2 in
  let* labelled := each read_slot slots in
  done (entry.1, labelled).

Definition series_labels (series : list (string * list (string * json))) : gset string :=
  list_to_set (mbind (λ entry, entry.2.*1) series).

(** The first slot of a series with the label [time]. *)
Fixpoint find_slot (time : string) (slots : list (string * json)) : option json :=
  match slots with
  | [] => None
  | (label, slot) :: rest =>
      if bool_decide (label = time) then Some slot else find_slot time rest
  end.

(** Lines 96-101 for one guid. *)
Definition cell_json (metric : Metric) (series : list (string * list (string * json)))
    (time guid : string) : option (Run string) :=
  match find_slot time (default [] (dict_lookup guid series)) with
  | None => done (dim_zero "0")
  | Some slot =>
      let* count := py_item slot (match metric with ENTRIES => 1 | EXITS => 2 end) in
      match py_text count with
      | Some value => done (dim_zero value)
      | None => None
      end
  end.

Definition row_json (metric : Metric) (series : list (string * list (string * json)))
    (zone_guids : list string) (time : string) : option (Run (list string)) :=
  let* cells := each (cell_json metric series time) zone_guids in
  done (time :: cells).

Definition create_visitors_table_json (reference : list RefRow) (visitors : json)
    (metric : Metric) : option (Run Table) :=
  match visitors with
  | JObj fields =>
      match fields !! "picker_date" with
      | None => fail (KeyError "picker_date")
      | Some date =>
          match py_text date with
          | None => None
          | Some date_text =>
              let table := Table_new ("Посещения зон (" +:+ metric_value metric
                                      +:+ ") за " +:+ date_text) in
              let table := add_column table "Время" "cyan" "center" in
              let names := guid_to_name reference in
              let zone_guids := default (JArr []) (fields !! "selected") in
              if negb (py_truthy zone_guids)
              then Some (logging CRITICAL "Список 'selected' пуст. Нет выбранных зон." NoArg;;
                         sys_exit 1)
              else
                let* items := py_iter zone_guids in
                let* guids := each py_key items in
                let table :=
                  foldl (λ t guid, add_column t (zone_name names guid) "magenta" "center")
                        table guids in
                let* data := Some (py_getitem visitors "data") in
                let* zones := py_iter data in
                let* guid_data := collect_zones guids zones [] in
                let* series := each read_series guid_data in
                let sorted_times := sorted (series_labels series) in
                let* rows := each (row_json metric series guids) sorted_times in
                done (foldl add_row table rows)
          end
      end
  | _ => fail TypeError
  end.

(** Lines 138-145 of main on the body. *)
Definition main_report_json (reference : list RefRow) (visitors : json)
    (metric : Metric) : option (Run unit) :=
  let* chosen := Some (py_getitem visitors "selected") in
  let* items := py_iter chosen in
  let* selected_list := each py_key items in
  let selected_guids : gset string := list_to_set selected_list in
  let reference_guids : gset (option string) := list_to_set (GUID <$> reference) in
  let missing_guids := filter (λ g, Some g ∉ reference_guids) selected_guids in
  let* _ := Some (if bool_decide (missing_guids = ∅)
                  then mret tt
                  else logging WARNING "Зоны с GUID {} отсутствуют в справочнике"
                         (GuidsArg missing_guids)) in
  let* table := create_visitors_table_json reference visitors metric in
  Some (emit (ConsolePrint table)).

(** ** The documented shape of a response

    { "picker_date": string, "selected": [string], "data": [[guid, any, any,
    [[timeLabel, entries, exits], ...]], ...] }: a list may be longer than
    the positions that are read, and the object may hold other keys. *)

Definition decode_str (v : json) : option string :=
  match v with JStr s => Some s | _ => None end.

Definition decode_slot (v : json) : option Slot :=
  match v with
  | JArr (JStr time :: JNum entries :: JNum exits :: _) =>
      Some {| slot_time := time; slot_entries := entries; slot_exits := exits |}
  | _ => None
  end.

Definition decode_zone (v : json) : option Zone :=
  match v with
  | JArr (JStr guid :: _ :: _ :: JArr slots :: _) =>
      slots ← mapM decode_slot slots;
      Some {| zone_guid := guid; zone_slots := slots |}
  | _ => None
  end.

Definition decode_visitors (v : json) : option Visitors :=
  match v with
  | JObj fields =>
      date ← fields !! "picker_date" ≫= decode_str;
      chosen ← match fields !! "selected" with
               | None => Some None
               | Some (JArr items) => Some <$> mapM decode_str items
               | Some _ => None
               end;
      zones ← match fields !! "data" with
              | Some (JArr zones) => mapM decode_zone zones
              | _ => None
              end;
      Some {| picker_date := date; selected := chosen; data := zones |}
  | _ => None
  end.

(** The per-zone mapping of a decoded response with its order of
    insertion, and what relates it to the mapping built from the body. *)
Definition guid_data_order (zone_guids : list string) (zones : list Zone)
    (d : list (string * list Slot)) : list (string * list Slot) :=
  foldl (λ d zone,
           if bool_decide (zone_guid zone ∈ zone_guids)
           then dict_set (zone_guid zone) (zone_slots zone) d
           else d)
        d zones.

Definition holds_series (raw : string * json) (typed : string * list Slot) : Prop :=
  raw.1 = typed.1 ∧ ∃ slots, raw.2 = JArr slots ∧ mapM decode_slot slots = Some typed.2.

Definition reads_slot (entry : string * json) (slot : Slot) : Prop :=
  entry.1 = slot_time slot ∧ decode_slot entry.2 = Some slot.

Definition reads_series (entry : string * list (string * json))
    (typed : string * list Slot) : Prop :=
  entry.1 = typed.1 ∧ Forall2 reads_slot entry.2 typed.2.

(** Bodies that the fetcher lets through and the builder cannot take: one
    without [picker_date] and with an empty selection, one with a record
    that is too short. *)
Definition body_without_date : json :=
  JObj (<["selected" := JArr []]>
          (<["data" := JArr [encode_zone sample_zone]]> ∅)).

Definition body_short_record : json :=
  JObj (<["picker_date" := JStr "12.06.2020"]>
          (<["selected" := JArr [JStr "A"]]>
             (<["data" := JArr [JArr [JStr "A"]]]> ∅))).

(** * Properties *)

(** ** The order of [sorted] *)

Section string_order.

Lemma string_leb_trans x y z :
  String.leb x y = true → String.leb y z = true → String.leb x z = true.
Proof.
  unfold String.leb. revert y z.
  induction x as [|a x IH]; intros [|b y] [|c z]; simpl; try done.
  unfold Ascii.compare.
  destruct (N.compare_spec (N_of_ascii a) (N_of_ascii b)) as [E1|E1|E1];
    destruct (N.compare_spec (N_of_ascii b) (N_of_ascii c)) as [E2|E2|E2];
    try done.
  - rewrite E1, E2, N.compare_refl. apply IH.
  - rewrite E1. by rewrite (proj2 (N.compare_lt_iff _ _) E2).
  - rewrite <- E2. by rewrite (proj2 (N.compare_lt_iff _ _) E1).
  - by rewrite (proj2 (N.compare_lt_iff _ _) (N.lt_trans _ _ _ E1 E2)).
Qed.

#[global] Instance string_le_total : Total string_le.
Proof. intros x y. apply String.leb_total. Qed.

#[global] Instance string_le_trans : Transitive string_le.
Proof. intros x y z. apply string_leb_trans. Qed.

#[global] Instance string_le_antisym : AntiSymm (=) string_le.
Proof. intros x y. apply String.leb_antisym. Qed.

Lemma string_le_ne_lt x y : string_le x y → x ≠ y → String.ltb x y = true.
Proof.
  unfold string_le, String.leb, String.ltb. intros Hle Hne.
  destruct (String.compare x y) eqn:E; try done.
  by apply String.compare_eq_iff in E.
Qed.

End string_order.

(** [sorted] lists exactly the members of the set, each once, in strictly
    ascending order. *)
Section sorted_facts.
Implicit Types (s : gset string) (t : string).

Lemma sorted_perm s : sorted s ≡ₚ elements s.
Proof. apply merge_sort_Permutation. Qed.

Lemma elem_of_sorted s t : t ∈ sorted s ↔ t ∈ s.
Proof. by rewrite sorted_perm, elem_of_elements. Qed.

Lemma NoDup_sorted s : NoDup (sorted s).
Proof. rewrite sorted_perm. apply NoDup_elements. Qed.

Lemma length_sorted s : length (sorted s) = size s.
Proof. by rewrite sorted_perm. Qed.

Lemma StronglySorted_sorted s : StronglySorted string_le (sorted s).
Proof. apply StronglySorted_merge_sort; apply _. Qed.

Lemma StronglySorted_lookup_le (l : list string) i j a b :
  StronglySorted string_le l → i < j → l !! i = Some a → l !! j = Some b →
  string_le a b.
Proof.
  intros Hs. revert i j. induction Hs as [|x l Hs IH Hall]; intros i j Hij Hi Hj.
  - done.
  - destruct j as [|j]; [lia|]. destruct i as [|i]; simpl in *.
    + injection Hi as <-. rewrite Forall_forall in Hall.
      apply Hall. by eapply list_elem_of_lookup_2.
    + apply (IH i j); [lia|done..].
Qed.

Lemma sorted_ascending s i j a b :
  i < j → sorted s !! i = Some a → sorted s !! j = Some b →
  String.ltb a b = true.
Proof.
  intros Hij Hi Hj. apply string_le_ne_lt.
  - eapply StronglySorted_lookup_le; eauto using StronglySorted_sorted.
  - intros ->. pose proof (NoDup_sorted s) as Hnd.
    rewrite NoDup_alt in Hnd. specialize (Hnd _ _ _ Hi Hj). lia.
Qed.

End sorted_facts.

(** ** Dictionaries filled in a loop: the last write wins *)

Section last_write_wins.
Context {K : Type} `{Countable K} {A V : Type}.
Variables (key : A → K) (val : A → V) (keep : A → bool).

Abbreviation put := (dict_put key val keep).

Lemma fold_put_skip m0 l k :
  Forall (λ y, keep y = true → key y ≠ k) l →
  foldl put m0 l !! k = m0 !! k.
Proof.
  intros Hl. revert m0. induction Hl as [|y l Hy _ IH]; intros m0; simpl; [done|].
  rewrite IH. unfold put. destruct (keep y); [|done].
  apply lookup_insert_ne. by apply Hy.
Qed.

Lemma fold_put_last m0 pre x post k :
  keep x = true → key x = k →
  Forall (λ y, keep y = true → key y ≠ k) post →
  foldl put m0 (pre ++ x :: post) !! k = Some (val x).
Proof.
  intros Hx <- Hpost. rewrite foldl_app. simpl.
  rewrite fold_put_skip by done.
  unfold put at 1. rewrite Hx. apply lookup_insert_eq.
Qed.

Lemma fold_put_inv l k v :
  foldl put ∅ l !! k = Some v →
  ∃ pre x post, l = pre ++ x :: post ∧ keep x = true ∧ key x = k ∧ val x = v ∧
                Forall (λ y, keep y = true → key y ≠ k) post.
Proof.
  induction l as [|x l IH] using rev_ind; [simpl; by rewrite lookup_empty|].
  rewrite foldl_snoc. unfold put at 1.
  destruct (keep x) eqn:Hx.
  - destruct (decide (key x = k)) as [Hk|Hk].
    + rewrite <- Hk, lookup_insert_eq. intros [= <-].
      exists l, x, []. by repeat split.
    + rewrite lookup_insert_ne by done. intros Hv.
      destruct (IH Hv) as (pre & y & post & -> & ? & ? & ? & Hpost).
      exists pre, y, (post ++ [x]). rewrite <- app_assoc. repeat split; try done.
      apply Forall_app. split; [done|]. by repeat constructor.
  - intros Hv. destruct (IH Hv) as (pre & y & post & -> & ? & ? & ? & Hpost).
    exists pre, y, (post ++ [x]). rewrite <- app_assoc. repeat split; try done.
    apply Forall_app. split; [done|]. repeat constructor. congruence.
Qed.

End last_write_wins.

(** ** The per-zone mapping and the set of time labels *)

Section mapping_facts.
Implicit Types (zone_guids : list string) (data : list Zone) (guid time : string).

Lemma guid_data_map_last zone_guids pre zone post :
  zone_guid zone ∈ zone_guids →
  Forall (λ z, zone_guid z ≠ zone_guid zone) post →
  guid_data_map zone_guids (pre ++ zone :: post) !! zone_guid zone
  = Some (zone_slots zone).
Proof.
  intros Hin Hpost.
  apply (fold_put_last zone_guid zone_slots
           (λ z, bool_decide (zone_guid z ∈ zone_guids))).
  - by apply bool_decide_eq_true.
  - done.
  - eapply Forall_impl; [exact Hpost|]. naive_solver.
Qed.

Lemma guid_data_map_Some zone_guids data guid slots :
  guid_data_map zone_guids data !! guid = Some slots →
  guid ∈ zone_guids ∧
  ∃ pre zone post, data = pre ++ zone :: post ∧ zone_guid zone = guid ∧
                   zone_slots zone = slots ∧
                   Forall (λ z, zone_guid z ≠ guid) post.
Proof.
  intros Hm.
  apply (fold_put_inv zone_guid zone_slots
           (λ z, bool_decide (zone_guid z ∈ zone_guids))) in Hm
    as (pre & zone & post & -> & Hin%bool_decide_eq_true & <- & <- & Hpost).
  split; [done|]. exists pre, zone, post. repeat split.
  eapply Forall_impl; [exact Hpost|]. simpl. intros z Hz Heq.
  apply Hz; [|done]. apply bool_decide_eq_true. by rewrite Heq.
Qed.

Lemma guid_data_map_None zone_guids data guid :
  (∀ zone, zone ∈ data → zone_guid zone ≠ guid) →
  guid_data_map zone_guids data !! guid = None.
Proof.
  intros Hno. destruct (guid_data_map zone_guids data !! guid) eqn:Hm; [|done].
  apply guid_data_map_Some in Hm as (_ & pre & zone & post & -> & Hg & _).
  exfalso. apply (Hno zone); [|done]. set_solver.
Qed.

Lemma elem_of_add_slots (acc : gset string) (slots : list Slot) time :
  time ∈ add_slots acc slots ↔
  time ∈ acc ∨ ∃ slot, slot ∈ slots ∧ slot_time slot = time.
Proof.
  unfold add_slots. revert acc.
  induction slots as [|slot slots IH]; intros acc; simpl.
  - split; [by left|]. intros [?|(slot & Hin & _)]; [done|]. by apply elem_of_nil in Hin.
  - rewrite IH, elem_of_union, elem_of_singleton. split.
    + intros [[->|?]|(s & ? & ?)]; [right; exists slot|by left|right; exists s];
        (split; [|done]); by constructor.
    + intros [?|(s & [->|?]%elem_of_cons & ?)]; [by left; right|by left; left|].
      right. by exists s.
Qed.

Lemma elem_of_time_slots_set (m : gmap string (list Slot)) time :
  time ∈ time_slots_set m ↔
  ∃ guid slots slot, m !! guid = Some slots ∧ slot ∈ slots ∧ slot_time slot = time.
Proof.
  unfold time_slots_set.
  apply (map_fold_weak_ind (λ acc m, time ∈ acc ↔
    ∃ guid slots slot, m !! guid = Some slots ∧ slot ∈ slots ∧ slot_time slot = time)).
  - split; [set_solver|]. intros (guid & slots & slot & Hm & _). by rewrite lookup_empty in Hm.
  - intros guid slots m' acc Hfresh IH. rewrite elem_of_add_slots, IH. split.
    + intros [(g & sl & s & Hg & Hs & Ht)|(s & Hs & Ht)].
      * exists g, sl, s. split; [|done]. rewrite lookup_insert_ne; [done|]. congruence.
      * exists guid, slots, s. by rewrite lookup_insert_eq.
    + intros (g & sl & s & Hg & Hs & Ht).
      destruct (decide (guid = g)) as [->|Hne].
      * rewrite lookup_insert_eq in Hg. injection Hg as ->. right. eauto.
      * rewrite lookup_insert_ne in Hg by done. left. eauto 6.
Qed.

(** When no identifier has two records, every record is the last one of its
    identifier. *)
Lemma last_record_unique data zone :
  NoDup (zone_guid <$> data) → zone ∈ data →
  last_record data (zone_guid zone) zone.
Proof.
  intros Hnd (pre & post & ->)%list_elem_of_split.
  exists pre, post. split; [done|]. split; [done|].
  rewrite fmap_app, fmap_cons in Hnd.
  apply NoDup_app in Hnd as (_ & _ & Hnd). apply NoDup_cons in Hnd as [Hnotin _].
  apply Forall_forall. intros z Hz Heq. apply Hnotin.
  rewrite <- Heq. by apply list_elem_of_fmap_2.
Qed.

End mapping_facts.

(** ** The table builder, step by step *)

Section builder_facts.
Implicit Types (table : Table) (zone_guids : list string) (time guid : string).

Lemma foldl_add_column (f : string → string) table zone_guids :
  foldl (λ t guid, add_column t (f guid) "magenta" "center") table zone_guids
  = {| title := title table;
       columns := columns table ++ (zone_column ∘ f <$> zone_guids);
       rows := rows table |}.
Proof.
  revert table. induction zone_guids as [|guid l IH]; intros table; simpl.
  - rewrite app_nil_r. by destruct table.
  - rewrite IH. simpl. by rewrite <- app_assoc.
Qed.

Lemma foldl_add_row (f : string → list string) table (times : list string) :
  foldl (λ t time, add_row t (f time)) table times
  = {| title := title table;
       columns := columns table;
       rows := rows table ++ (f <$> times) |}.
Proof.
  revert table. induction times as [|time l IH]; intros table; simpl.
  - rewrite app_nil_r. by destruct table.
  - rewrite IH. simpl. by rewrite <- app_assoc.
Qed.

Lemma row_data_cells metric m zone_guids time :
  row_data metric m zone_guids time = time :: (cell metric m time <$> zone_guids).
Proof.
  unfold row_data.
  enough (∀ row, foldl (λ row guid, row ++ [cell metric m time guid]) row zone_guids
                 = row ++ (cell metric m time <$> zone_guids)) as ->; [done|].
  induction zone_guids as [|guid l IH]; intros row; simpl.
  - by rewrite app_nil_r.
  - rewrite IH. by rewrite <- app_assoc.
Qed.

(** With a non-empty selection the builder logs nothing, exits nowhere and
    returns this table. *)
Lemma create_visitors_table_built reference visitors metric zone_guids :
  selected visitors = Some zone_guids → zone_guids ≠ [] →
  let m := guid_data_map zone_guids (data visitors) in
  create_visitors_table reference visitors metric
  = ([], Return
       {| title := "Посещения зон (" +:+ metric_value metric +:+ ") за "
                   +:+ picker_date visitors;
          columns := time_column
                     :: (zone_column ∘ zone_name (guid_to_name reference) <$> zone_guids);
          rows := (λ time, time :: (cell metric m time <$> zone_guids))
                  <$> sorted (time_slots_set m) |}).
Proof.
  intros Hsel Hne m. unfold create_visitors_table. rewrite Hsel. simpl.
  rewrite bool_decide_eq_false_2 by done.
  rewrite foldl_add_column, foldl_add_row. simpl.
  unfold mret, Run_ret, run_ret. do 3 f_equal.
  apply list_fmap_ext. intros _ time _. apply row_data_cells.
Qed.

Lemma create_visitors_table_empty reference visitors metric :
  default [] (selected visitors) = [] →
  create_visitors_table reference visitors metric
  = ([empty_selection], SystemExit 1).
Proof. intros Hsel. unfold create_visitors_table. by rewrite Hsel. Qed.

Lemma scan_slots_first metric time slots slot value :
  first_slot slots time slot →
  scan_slots metric time slots value = str (metric_field metric slot).
Proof.
  intros (pre & post & -> & Ht & Hpre).
  induction Hpre as [|s pre Hs _ IH]; simpl.
  - rewrite bool_decide_eq_true_2 by done. by destruct metric.
  - by rewrite bool_decide_eq_false_2.
Qed.

Lemma scan_slots_absent metric time slots value :
  Forall (λ s, slot_time s ≠ time) slots →
  scan_slots metric time slots value = value.
Proof.
  induction 1 as [|s l Hs _ IH]; simpl; [done|].
  by rewrite bool_decide_eq_false_2.
Qed.

(** [str] of an int is "0" for zero only. *)
Lemma str_zero n : str n = "0" ↔ n = 0%Z.
Proof.
  split; [|by intros ->].
  intros Hn. by apply (inj (pretty : Z → string)).
Qed.

End builder_facts.

(** ** The fetcher *)

(** Runs the fetcher up to the decoding of the body, for a reply [Hreply]
    with a good status. *)
Ltac replied_ok Hreply :=
  unfold chart_request in Hreply;
  unfold fetch_visitors_data, requests_get, chart_params, raise_for_status;
  rewrite Hreply; cbn;
  rewrite bool_decide_eq_false_2 by done; cbn;
  unfold response_json.

Section fetcher_facts.
Variable server : Server.
Variables (api_host date : string) (guids : list string).

Abbreviation info := (fetch_info api_host date).
Abbreviation req := (chart_request api_host date guids).
Abbreviation failure := (fetch_failure api_host date guids).
Abbreviation empty_data := (fetch_empty_data api_host date guids).

Lemma fetch_no_reply what :
  server req = Failed what →
  fetch_visitors_data server api_host date guids = failure (RequestError what).
Proof.
  intros Hs. unfold chart_request in Hs.
  unfold fetch_visitors_data, requests_get, chart_params. rewrite Hs. reflexivity.
Qed.

Lemma fetch_bad_status resp :
  server req = Replied resp → (400 ≤ status_code resp < 600)%Z →
  fetch_visitors_data server api_host date guids
  = failure (HTTPError (status_code resp)).
Proof.
  intros Hs Hst. unfold chart_request in Hs.
  unfold fetch_visitors_data, requests_get, chart_params, raise_for_status.
  rewrite Hs. cbn. rewrite bool_decide_eq_true_2 by done. reflexivity.
Qed.

Section replied.
Variables (resp : Response).
Hypothesis Hreply : server req = Replied resp.
Hypothesis Hstatus : ¬ (400 ≤ status_code resp < 600)%Z.

Lemma fetch_not_json :
  body resp = None →
  fetch_visitors_data server api_host date guids = failure JSONDecodeError.
Proof.
  intros Hb. replied_ok Hreply. by rewrite Hb.
Qed.

Variable doc : json.
Hypothesis Hbody : body resp = Some doc.

Lemma fetch_accepts item items :
  data_of doc = Some (JArr (item :: items)) →
  fetch_visitors_data server api_host date guids = ([info; HttpGet req], Return doc).
Proof.
  intros Hd. replied_ok Hreply. rewrite Hbody.
  destruct doc as [| | | | |fields]; try discriminate Hd. simpl in Hd.
  cbn. rewrite Hd. cbn. reflexivity.
Qed.

Lemma fetch_empty :
  data_of doc = Some (JArr []) →
  fetch_visitors_data server api_host date guids = empty_data.
Proof.
  intros Hd. replied_ok Hreply. rewrite Hbody.
  destruct doc as [| | | | |fields]; try discriminate Hd. simpl in Hd.
  cbn. rewrite Hd. cbn. reflexivity.
Qed.

Lemma fetch_malformed :
  (∀ items, data_of doc ≠ Some (JArr items)) →
  ∃ e, fetch_visitors_data server api_host date guids = failure e.
Proof.
  intros Hd. replied_ok Hreply. rewrite Hbody.
  destruct doc as [|b|n|s|items|fields]; cbn.
  - by eexists.
  - by eexists.
  - by eexists.
  - destruct (substringb "data" s); cbn; by eexists.
  - destruct (existsb (is_str "data") items); cbn; by eexists.
  - simpl in Hd. destruct (fields !! "data") as [v|] eqn:Hv; cbn.
    + destruct v; cbn; try by eexists. by destruct (Hd items).
    + by eexists.
Qed.
End replied.

(** Every run of the fetcher ends in one of two ways. *)
Lemma fetch_outcomes :
  (∃ resp doc item items,
      server req = Replied resp ∧ ¬ (400 ≤ status_code resp < 600)%Z ∧
      body resp = Some doc ∧ data_of doc = Some (JArr (item :: items)) ∧
      fetch_visitors_data server api_host date guids = ([info; HttpGet req], Return doc))
  ∨ (∃ text arg,
      fetch_visitors_data server api_host date guids
      = ([info; HttpGet req; Log CRITICAL text arg], SystemExit 1)).
Proof.
  destruct (server req) as [what|resp] eqn:Hs.
  { right. rewrite (fetch_no_reply _ Hs). by eexists _, _. }
  destruct (decide (400 ≤ status_code resp < 600)%Z) as [Hst|Hst].
  { right. rewrite (fetch_bad_status _ Hs Hst). by eexists _, _. }
  destruct (body resp) as [doc|] eqn:Hb.
  2: { right. rewrite (fetch_not_json _ Hs Hst Hb). by eexists _, _. }
  destruct (data_of doc) as [v|] eqn:Hd.
  2: { right. destruct (fetch_malformed _ Hs Hst _ Hb) as [e ->]; [congruence|].
       by eexists _, _. }
  destruct v as [|b|n|s|items|fields];
    try (right; destruct (fetch_malformed _ Hs Hst _ Hb) as [e ->]; [congruence|];
         by eexists _, _).
  destruct items as [|item items].
  - right. rewrite (fetch_empty _ Hs Hst _ Hb Hd). by eexists _, _.
  - left. exists resp, doc, item, items. repeat split; try done.
    by apply (fetch_accepts _ Hs Hst _ Hb item items).
Qed.
End fetcher_facts.

(** The fetcher on the document of a typed response: it goes through
    exactly when [data] is not empty. *)
Lemma data_of_encode visitors :
  data_of (encode_visitors visitors) = Some (JArr (encode_zone <$> data visitors)).
Proof.
  unfold encode_visitors, data_of.
  destruct (selected visitors); rewrite ?(lookup_insert_ne _ "selected") by done;
    by rewrite lookup_insert_ne, lookup_insert_eq.
Qed.

Lemma fetch_encoded api_host date guids visitors :
  fetch_visitors_data (server_replying (encode_visitors visitors)) api_host date guids
  = if bool_decide (data visitors = [])
    then fetch_empty_data api_host date guids
    else ([fetch_info api_host date; HttpGet (chart_request api_host date guids)],
          Return (encode_visitors visitors)).
Proof.
  pose proof (data_of_encode visitors) as Hd.
  set (resp := {| status_code := 200; body := Some (encode_visitors visitors) |}).
  assert (¬ (400 ≤ status_code resp < 600)%Z) as Hst by (simpl; lia).
  case_bool_decide as Hdata.
  - rewrite Hdata in Hd.
    by apply (fetch_empty _ api_host date guids resp eq_refl Hst _ eq_refl).
  - destruct (data visitors) as [|zone zones]; [done|].
    by apply (fetch_accepts _ api_host date guids resp eq_refl Hst _ eq_refl
                (encode_zone zone) (encode_zone <$> zones)).
Qed.

(** ** The identifier→name lookup *)

Section reference_facts.
Implicit Types (reference : list RefRow) (guid : string).

Lemma guid_to_name_snoc reference row :
  guid_to_name (reference ++ [row])
  = <[GUID row := Name row]> (guid_to_name reference).
Proof. unfold guid_to_name. by rewrite foldl_snoc. Qed.

Lemma guid_to_name_last reference guid row :
  last_row reference guid row →
  guid_to_name reference !! Some guid = Some (Name row).
Proof.
  intros (pre & post & -> & Hrow & Hpost).
  apply (fold_put_last GUID Name (λ _, true)); [done..|].
  eapply Forall_impl; [exact Hpost|]. naive_solver.
Qed.

Lemma guid_to_name_unknown reference (k : option string) :
  (∀ row, row ∈ reference → GUID row ≠ k) →
  guid_to_name reference !! k = None.
Proof.
  intros Hno.
  rewrite <- (lookup_empty (M := gmap (option string)) (A := string) k).
  apply (fold_put_skip GUID Name (λ _, true)).
  apply Forall_forall. intros row Hrow _. by apply Hno.
Qed.

Lemma guid_to_name_missing_kept reference row :
  row ∈ reference → GUID row = None →
  is_Some (guid_to_name reference !! None).
Proof.
  intros Hin Hrow. induction reference as [|r l IH] using rev_ind.
  - by apply elem_of_nil in Hin.
  - rewrite guid_to_name_snoc.
    destruct (GUID r) as [g|] eqn:Hr.
    + rewrite lookup_insert_ne by done. apply IH.
      apply elem_of_app in Hin as [?|Hin]; [done|].
      apply list_elem_of_singleton in Hin. congruence.
    + rewrite lookup_insert_eq. by eexists.
Qed.

Lemma dropna_snoc reference row :
  dropna (reference ++ [row])
  = dropna reference ++ (if GUID row is Some _ then [row] else []).
Proof.
  unfold dropna. rewrite filter_app. f_equal.
  destruct (GUID row) eqn:Hrow.
  - rewrite filter_cons_True; [done|]. rewrite Hrow. by eexists.
  - rewrite filter_cons_False; [done|]. rewrite Hrow. by intros [? ?].
Qed.

(** No lookup by an identifier sees the rows with an empty GUID cell. *)
Lemma guid_to_name_dropna reference guid :
  guid_to_name reference !! Some guid = guid_to_name (dropna reference) !! Some guid.
Proof.
  induction reference as [|row l IH] using rev_ind; [done|].
  rewrite dropna_snoc, guid_to_name_snoc.
  destruct (GUID row) as [g|] eqn:Hrow.
  - rewrite guid_to_name_snoc, Hrow, !lookup_insert. by rewrite IH.
  - rewrite app_nil_r, lookup_insert_ne by done. apply IH.
Qed.

Lemma api_guids_dropna reference :
  Some <$> api_guids reference = GUID <$> dropna reference.
Proof.
  unfold api_guids, dropna. induction reference as [|row l IH]; [done|].
  simpl. destruct (GUID row) as [g|] eqn:Hrow.
  - rewrite filter_cons_True by (rewrite Hrow; by eexists).
    rewrite !fmap_cons, Hrow. f_equal. apply IH.
  - rewrite filter_cons_False by (rewrite Hrow; by intros [? ?]). apply IH.
Qed.

End reference_facts.

(** ** Reading the built table *)

Section table_facts.
Variables (reference : list RefRow) (visitors : Visitors) (metric : Metric).
Variable zone_guids : list string.
Hypothesis Hsel : selected visitors = Some zone_guids.
Hypothesis Hne : zone_guids ≠ [].

Abbreviation m := (guid_data_map zone_guids (data visitors)).

(** The cell of the row labelled [time] in the column of the [j]-th
    selected identifier. *)
Lemma table_cell_built :
  ∃ table,
    create_visitors_table reference visitors metric = ([], Return table) ∧
    ∀ i j time guid,
      table_cell table i 0 = Some time → zone_guids !! j = Some guid →
      table_cell table i (S j) = Some (cell metric m time guid).
Proof.
  eexists. split; [by apply create_visitors_table_built|].
  intros i j time guid. unfold table_cell. simpl.
  rewrite list_lookup_fmap.
  destruct (sorted _ !! i) as [t|]; [simpl|done].
  intros [= ->] Hj. by rewrite list_lookup_fmap, Hj.
Qed.

Lemma selected_series guid zone :
  guid ∈ zone_guids → last_record (data visitors) guid zone →
  m !! guid = Some (zone_slots zone).
Proof.
  intros Hin (pre & post & Hd & Hg & Hpost).
  rewrite Hd, <- Hg. apply guid_data_map_last; by rewrite Hg.
Qed.

Lemma selected_series_inv guid slots :
  m !! guid = Some slots →
  ∃ zone, last_record (data visitors) guid zone ∧ zone_slots zone = slots.
Proof.
  intros (_ & pre & zone & post & Hd & Hg & Hs & Hpost)%guid_data_map_Some.
  exists zone. split; [|done]. by exists pre, post.
Qed.
End table_facts.

(** ** main around the builder *)

(** main indexes [selected] itself before it calls the builder (line 138):
    for a response without the key the program stops there, on the
    exception, and the builder is not reached. *)
Lemma main_report_absent_selected reference visitors metric :
  selected visitors = None →
  main_report reference visitors metric = ([], Raise (KeyError "selected")).
Proof. intros Hsel. unfold main_report. by rewrite Hsel. Qed.

(** ** The scenarios of the specification *)

Example scenario_table :
  create_visitors_table scenario_reference scenario_visitors ENTRIES
  = ([], Return
       {| title := "Посещения зон (entries) за 12.06.2020";
          columns := [time_column; zone_column "Zone A"];
          rows := [ ["00:00"; "5"]; ["00:30"; "[dim]0[/]"] ] |}).
Proof. vm_compute. reflexivity. Qed.

Example sample_table_entries :
  create_visitors_table sample_reference sample_visitors ENTRIES
  = ([], Return
       {| title := "Посещения зон (entries) за 12.06.2020";
          columns := [time_column; zone_column "Zone B"; zone_column "X";
                      zone_column "Hall A"];
          rows := [ ["00:00"; "3"; "[dim]0[/]"; "[dim]0[/]"];
                    ["01:00"; "[dim]0[/]"; "[dim]0[/]"; "5"] ] |}).
Proof. vm_compute. reflexivity. Qed.

Example sample_table_exits :
  ∃ table,
    create_visitors_table sample_reference sample_visitors EXITS = ([], Return table) ∧
    rows table = [ ["00:00"; "[dim]0[/]"; "[dim]0[/]"; "7"];
                   ["01:00"; "[dim]0[/]"; "[dim]0[/]"; "2"] ].
Proof. eexists. split; vm_compute; reflexivity. Qed.

(** An identifier absent from the reference: main warns, the header is the
    identifier, the table is printed. *)
Example sample_report_warns :
  ∃ table,
    main_report sample_reference sample_visitors ENTRIES
    = ([ Log WARNING "Зоны с GUID {} отсутствуют в справочнике" (GuidsArg {["X"]});
         ConsolePrint table ], Return tt) ∧
    header <$> columns table = ["Время"; "Zone B"; "X"; "Hall A"].
Proof. eexists. split; vm_compute; reflexivity. Qed.

(** An empty [data] at the API level: the fetcher ends the process. *)
Example scenario_empty_data :
  fetch_visitors_data
    (server_replying (encode_visitors {| picker_date := "12.06.2020";
                                         selected := Some ["A"]; data := [] |}))
    "127.0.0.1:9006" "12.06.2020" ["A"]
  = fetch_empty_data "127.0.0.1:9006" "12.06.2020" ["A"].
Proof. vm_compute. reflexivity. Qed.

Example sample_api_guids : api_guids sample_reference = ["A"; "A"; "B"].
Proof. reflexivity. Qed.

Example sample_objects : String.concat "," (api_guids sample_reference) = "A,A,B".
Proof. reflexivity. Qed.

(** * The claims of the specification *)

(** C1.  For a non-empty [selected] and any reference, the builder returns a
    table with [len(selected) + 1] columns and as many cells in every row;
    its rows carry, each exactly once, the time labels found in the series of
    the selected zones (the series the per-zone mapping holds for a zone: the
    one of its last record in [data]), in strictly ascending lexicographic
    order of the raw labels.  When [data] has one record per zone these are
    the labels of all the records whose identifier is selected. *)
Theorem C1_table_shape reference visitors metric zone_guids :
  selected visitors = Some zone_guids → zone_guids ≠ [] →
  ∃ table times,
    create_visitors_table reference visitors metric = ([], Return table) ∧
    length (columns table) = length zone_guids + 1 ∧
    Forall (λ row, length row = length zone_guids + 1) (rows table) ∧
    row_labels table = Some <$> times ∧
    NoDup times ∧
    (∀ time, time ∈ times ↔
       ∃ guid zone slot, guid ∈ zone_guids ∧ last_record (data visitors) guid zone ∧
                         slot ∈ zone_slots zone ∧ slot_time slot = time) ∧
    (∀ i j a b, i < j → times !! i = Some a → times !! j = Some b →
                String.ltb a b = true) ∧
    (NoDup (zone_guid <$> data visitors) →
     ∀ time, time ∈ times ↔
       ∃ zone slot, zone ∈ data visitors ∧ zone_guid zone ∈ zone_guids ∧
                    slot ∈ zone_slots zone ∧ slot_time slot = time).
Proof.
  intros Hsel Hne.
  pose proof (create_visitors_table_built reference visitors metric zone_guids Hsel Hne)
    as Hbuilt. simpl in Hbuilt.
  set (m := guid_data_map zone_guids (data visitors)) in *.
  eexists _, (sorted (time_slots_set m)). split; [exact Hbuilt|]. simpl.
  split_and!.
  - rewrite length_fmap. lia.
  - apply Forall_fmap, Forall_forall. intros time _. simpl.
    rewrite length_fmap. lia.
  - unfold row_labels. simpl. rewrite <- list_fmap_compose.
    by apply list_fmap_ext.
  - apply NoDup_sorted.
  - intros time. rewrite elem_of_sorted, elem_of_time_slots_set. split.
    + intros (guid & slots & slot & Hm & Hslot & Ht).
      apply guid_data_map_Some in Hm as (Hin & pre & zone & post & Hd & Hg & <- & Hpost).
      exists guid, zone, slot. split_and!; try done. by exists pre, post.
    + intros (guid & zone & slot & Hin & (pre & post & Hd & Hg & Hpost) & Hslot & Ht).
      exists guid, (zone_slots zone), slot. split_and!; try done.
      subst m. rewrite Hd, <- Hg. apply guid_data_map_last; by rewrite Hg.
  - intros i j a b. apply sorted_ascending.
  - intros Hnd time. rewrite elem_of_sorted, elem_of_time_slots_set. split.
    + intros (guid & slots & slot & Hm & Hslot & Ht).
      apply guid_data_map_Some in Hm as (Hin & pre & zone & post & Hd & Hg & <- & Hpost).
      exists zone, slot. split_and!; try done; [|by rewrite Hg].
      rewrite Hd. apply elem_of_app. right. by constructor.
    + intros (zone & slot & Hzone & Hin & Hslot & Ht).
      exists (zone_guid zone), (zone_slots zone), slot. split_and!; try done.
      apply (last_record_unique _ _ Hnd) in Hzone as (pre & post & Hd & _ & Hpost).
      subst m. rewrite Hd. by apply guid_data_map_last.
Qed.

(** C2.  Every time label found in the series of a selected zone heads a
    row of the table.  In the row of every time label and the column of every
    selected identifier there is a cell, and it renders a value: the string
    form of the entries count (index 1) or of the exits count (index 2), by
    the metric, of the slot of that zone's series whose label is the row's,
    and "0" when the series has no such slot (or the zone has no series).
    The cell is the dimmed marker exactly when that value is "0", be the slot
    absent or its count zero; otherwise it is the value itself. *)
Theorem C2_cell_values reference visitors metric zone_guids :
  selected visitors = Some zone_guids → zone_guids ≠ [] →
  ∃ table,
    create_visitors_table reference visitors metric = ([], Return table) ∧
    (∀ guid zone slot,
       guid ∈ zone_guids → last_record (data visitors) guid zone →
       slot ∈ zone_slots zone →
       ∃ i, table_cell table i 0 = Some (slot_time slot)) ∧
    ∀ i j time guid,
      table_cell table i 0 = Some time → zone_guids !! j = Some guid →
      ∃ value c,
        table_cell table i (S j) = Some c ∧
        (∀ zone slot, last_record (data visitors) guid zone →
                      first_slot (zone_slots zone) time slot →
                      value = str (metric_field metric slot) ∧
                      (value = "0" ↔ metric_field metric slot = 0%Z)) ∧
        ((∀ zone, last_record (data visitors) guid zone →
                  Forall (λ s, slot_time s ≠ time) (zone_slots zone)) →
         value = "0") ∧
        (value = "0" → c = "[dim]0[/]") ∧
        (value ≠ "0" → c = value).
Proof.
  intros Hsel Hne.
  destruct (table_cell_built reference visitors metric zone_guids Hsel Hne)
    as (table & Hrun & Hcell).
  exists table. split; [done|]. split.
  { intros guid zone slot Hin Hzone Hslot.
    pose proof (create_visitors_table_built reference visitors metric zone_guids
                  Hsel Hne) as Hbuilt. simpl in Hbuilt.
    rewrite Hbuilt in Hrun. injection Hrun as <-.
    assert (slot_time slot
            ∈ sorted (time_slots_set (guid_data_map zone_guids (data visitors))))
      as [i Hi]%list_elem_of_lookup_1.
    { rewrite elem_of_sorted, elem_of_time_slots_set.
      exists guid, (zone_slots zone), slot. split; [|done].
      by apply selected_series. }
    exists i. unfold table_cell. simpl. by rewrite list_lookup_fmap, Hi. }
  intros i j time guid Hi Hj.
  pose (m := guid_data_map zone_guids (data visitors)).
  exists (scan_slots metric time (default [] (m !! guid)) "0"), (cell metric m time guid).
  split; [by eapply Hcell|]. subst m. split_and!.
  - intros zone slot Hzone Hslot.
    rewrite (selected_series visitors zone_guids guid zone); [|by eapply list_elem_of_lookup_2|done].
    simpl. rewrite (scan_slots_first metric time _ slot) by done.
    split; [done|]. apply str_zero.
  - intros Hno.
    destruct (guid_data_map zone_guids (data visitors) !! guid) as [slots|] eqn:Hm;
      simpl; [|done].
    apply selected_series_inv in Hm as (zone & Hzone & <-).
    apply scan_slots_absent. by apply Hno.
  - unfold cell, dim_zero. intros ->. by rewrite bool_decide_eq_true_2.
  - unfold cell, dim_zero. intros Hv. by rewrite bool_decide_eq_false_2.
Qed.

(** C3.  For a non-empty [selected] the builder returns (it does not exit or
    raise); after the time column the columns follow [selected], one per
    identifier and in its order; the header is the name of the last reference
    row carrying that GUID, and the identifier itself when no row carries
    it. *)
Theorem C3_columns_follow_selected reference visitors metric zone_guids :
  selected visitors = Some zone_guids → zone_guids ≠ [] →
  ∃ table headers,
    create_visitors_table reference visitors metric = ([], Return table) ∧
    header <$> columns table = "Время" :: headers ∧
    length headers = length zone_guids ∧
    ∀ j guid, zone_guids !! j = Some guid →
      ∃ name, headers !! j = Some name ∧
              (∀ row, last_row reference guid row → name = Name row) ∧
              ((∀ row, row ∈ reference → GUID row ≠ Some guid) → name = guid).
Proof.
  intros Hsel Hne.
  eexists _, (zone_name (guid_to_name reference) <$> zone_guids).
  split; [by apply create_visitors_table_built|]. simpl. split_and!.
  - f_equal. rewrite <- list_fmap_compose. by apply list_fmap_ext.
  - by rewrite length_fmap.
  - intros j guid Hj. exists (zone_name (guid_to_name reference) guid).
    rewrite list_lookup_fmap, Hj. split_and!; [done|..]; unfold zone_name.
    + intros row Hrow. by rewrite (guid_to_name_last _ _ _ Hrow).
    + intros Hno. by rewrite guid_to_name_unknown.
Qed.


(** C10.  When [data] holds several records for one selected identifier, the
    per-zone mapping has the series of the last of them: the records before
    it leave no trace. *)
Theorem C10_last_record_wins zone_guids data guid zone :
  guid ∈ zone_guids → last_record data guid zone →
  guid_data_map zone_guids data !! guid = Some (zone_slots zone).
Proof.
  intros Hin (pre & post & -> & <- & Hpost). by apply guid_data_map_last.
Qed.

(** C4 (as the code has it).  In the identifier→name lookup a GUID is a
    unique key: of several reference rows with one GUID the last one gives
    the name.  The identifier list sent to the API is the GUID column without
    its empty cells, in order.  The lookup itself is built from every row: a
    row with an empty GUID cell stays in it under the missing value, where no
    identifier can reach it, so every header is what it would be had those
    rows been dropped. *)
Theorem C4_lookup_keys reference :
  (∀ guid row, last_row reference guid row →
               guid_to_name reference !! Some guid = Some (Name row)) ∧
  Some <$> api_guids reference = GUID <$> dropna reference ∧
  (∀ guid, zone_name (guid_to_name reference) guid
           = zone_name (guid_to_name (dropna reference)) guid) ∧
  (∀ row, row ∈ reference → GUID row = None →
          is_Some (guid_to_name reference !! None)).
Proof.
  split_and!.
  - apply guid_to_name_last.
  - apply api_guids_dropna.
  - intros guid. unfold zone_name. by rewrite guid_to_name_dropna.
  - apply guid_to_name_missing_kept.
Qed.

(** C4 as stated fails: the lookup built from a reference with a row without
    GUID is not the lookup built after dropping that row. *)
Lemma C4_missing_guid_row_not_dropped :
  guid_to_name sample_reference ≠ guid_to_name (dropna sample_reference).
Proof.
  intros Heq. apply (f_equal (λ names, names !! None)) in Heq.
  vm_compute in Heq. discriminate Heq.
Qed.

(** C5.  The fetcher returns only a decoded body whose [data] is a non-empty
    list, and it returns every such body that arrives with a good status;
    a body that lacks [data], or whose [data] is not a list or is the empty
    list, ends the process with status 1, the last event before that being a
    log line of critical severity. *)
Theorem C5_fetch_validates_data server api_host date guids :
  let run := fetch_visitors_data server api_host date guids in
  let req := chart_request api_host date guids in
  (∀ doc, outcome run = Return doc →
     ∃ resp item items, server req = Replied resp ∧ body resp = Some doc ∧
                        data_of doc = Some (JArr (item :: items))) ∧
  (∀ resp doc,
     server req = Replied resp → ¬ (400 ≤ status_code resp < 600)%Z →
     body resp = Some doc →
     (data_of doc = None
      ∨ (∃ v, data_of doc = Some v ∧ is_list v = false)
      ∨ data_of doc = Some (JArr [])) →
     outcome run = SystemExit 1 ∧
     ∃ text arg, last (events run) = Some (Log CRITICAL text arg)) ∧
  (∀ resp doc item items,
     server req = Replied resp → ¬ (400 ≤ status_code resp < 600)%Z →
     body resp = Some doc → data_of doc = Some (JArr (item :: items)) →
     outcome run = Return doc ∧
     Forall (λ ev, ∀ text arg, ev ≠ Log CRITICAL text arg) (events run)).
Proof.
  intros run req. subst run req. split_and!.
  - intros doc Hout.
    destruct (fetch_outcomes server api_host date guids)
      as [(resp & doc' & item & items & Hs & _ & Hb & Hd & Hrun)|(text & arg & Hrun)];
      rewrite Hrun in Hout; [|discriminate Hout].
    injection Hout as <-. by exists resp, item, items.
  - intros resp doc Hs Hst Hb Hbad.
    destruct (fetch_outcomes server api_host date guids)
      as [(resp' & doc' & item & items & Hs' & _ & Hb' & Hd & Hrun)|(text & arg & Hrun)].
    + exfalso. rewrite Hs in Hs'. injection Hs' as <-.
      rewrite Hb in Hb'. injection Hb' as <-.
      destruct Hbad as [Hn|[(v & Hv & Hl)|He]]; try congruence.
      rewrite Hd in Hv. by injection Hv as <-.
    + rewrite Hrun. split; [done|]. by exists text, arg.
  - intros resp doc item items Hs Hst Hb Hd.
    rewrite (fetch_accepts server api_host date guids resp Hs Hst doc Hb item items Hd).
    split; [done|]. by repeat constructor.
Qed.

(** C7.  Whatever the server does, the fetcher sends one request and no
    more: a GET of http://{host}/borders/chart-data with the parameters
    mode=halfhour, date (the date string as given) and objects (the
    identifiers joined by commas), and these only. *)
Theorem C7_single_get server api_host date guids :
  filter is_http_get (events (fetch_visitors_data server api_host date guids))
  = [HttpGet {| url := "http://" +:+ api_host +:+ "/borders/chart-data";
                params := [ ("mode", "halfhour"); ("date", date);
                            ("objects", String.concat "," guids) ];
                timeout := 10 |}].
Proof.
  destruct (fetch_outcomes server api_host date guids)
    as [(resp & doc & item & items & _ & _ & _ & _ & Hrun)|(text & arg & Hrun)];
    by rewrite Hrun.
Qed.

(** C8.  A response without the key [selected] is treated by the builder as
    one with an empty [selected]: the same critical log line, the same exit
    with status 1, and no exception for the absent key. *)
Theorem C8_absent_selected reference visitors metric :
  selected visitors = None →
  create_visitors_table reference visitors metric
  = ([empty_selection], SystemExit 1) ∧
  create_visitors_table reference visitors metric
  = create_visitors_table reference
      {| picker_date := picker_date visitors; selected := Some [];
         data := data visitors |} metric.
Proof.
  intros Hsel.
  rewrite !create_visitors_table_empty; [done|done|by rewrite Hsel].
Qed.

(** * The claims at the sample response *)

Lemma C1_table_shape_witness :
  ∃ table times,
    create_visitors_table sample_reference sample_visitors ENTRIES = ([], Return table) ∧
    length (columns table) = 4 ∧
    Forall (λ row, length row = 4) (rows table) ∧
    row_labels table = Some <$> times ∧
    NoDup times ∧
    (∀ time, time ∈ times ↔
       ∃ guid zone slot, guid ∈ ["B"; "X"; "A"] ∧ last_record sample_data guid zone ∧
                         slot ∈ zone_slots zone ∧ slot_time slot = time) ∧
    (∀ i j a b, i < j → times !! i = Some a → times !! j = Some b →
                String.ltb a b = true) ∧
    (NoDup (zone_guid <$> sample_data) →
     ∀ time, time ∈ times ↔
       ∃ zone slot, zone ∈ sample_data ∧ zone_guid zone ∈ ["B"; "X"; "A"] ∧
                    slot ∈ zone_slots zone ∧ slot_time slot = time).
Proof.
  apply (C1_table_shape sample_reference sample_visitors ENTRIES ["B"; "X"; "A"]);
    [reflexivity | discriminate].
Defined.

Lemma sample_zone_last : last_record sample_data "A" sample_zone.
Proof.
  exists [ {| zone_guid := "A";
              zone_slots := [ {| slot_time := "00:30"; slot_entries := 1; slot_exits := 1 |} ] |};
           {| zone_guid := "Z";
              zone_slots := [ {| slot_time := "23:00"; slot_entries := 9; slot_exits := 9 |} ] |} ],
         [ {| zone_guid := "B";
              zone_slots := [ {| slot_time := "00:00"; slot_entries := 3; slot_exits := 0 |} ] |} ].
  split; [reflexivity|]. split; [reflexivity|].
  constructor; [discriminate|constructor].
Defined.

Lemma C2_cell_values_witness :
  ∃ table,
    create_visitors_table sample_reference sample_visitors EXITS = ([], Return table) ∧
    (∃ i, table_cell table i 0 = Some "01:00") ∧
    table_cell table 1 3 = Some "2" ∧
    table_cell table 1 2 = Some "[dim]0[/]".
Proof.
  destruct (C2_cell_values sample_reference sample_visitors EXITS ["B"; "X"; "A"])
    as (table & Hrun & Hrows & Hcells); [reflexivity | discriminate |].
  exists table. split; [exact Hrun|]. split; [|split].
  - apply (Hrows "A" sample_zone
             {| slot_time := "01:00"; slot_entries := 5; slot_exits := 2 |}).
    + apply list_elem_of_In. simpl. tauto.
    + exact sample_zone_last.
    + apply list_elem_of_In. simpl. tauto.
  - destruct (Hcells 1 2 "01:00" "A") as (value & c & Hc & Hpresent & _ & _ & Hplain).
    + vm_compute in Hrun. injection Hrun as <-. reflexivity.
    + reflexivity.
    + rewrite Hc. f_equal.
      destruct (Hpresent sample_zone
                  {| slot_time := "01:00"; slot_entries := 5; slot_exits := 2 |})
        as [Hvalue _].
      * exact sample_zone_last.
      * exists [], [ {| slot_time := "00:00"; slot_entries := 0; slot_exits := 7 |};
                     {| slot_time := "01:00"; slot_entries := 8; slot_exits := 8 |} ].
        split; [reflexivity|]. split; [reflexivity|constructor].
      * rewrite Hplain; rewrite Hvalue; [reflexivity|discriminate].
  - destruct (Hcells 1 1 "01:00" "X") as (value & c & Hc & _ & Habsent & Hdim & _).
    + vm_compute in Hrun. injection Hrun as <-. reflexivity.
    + reflexivity.
    + rewrite Hc. f_equal. apply Hdim, Habsent.
      intros zone (pre & post & Hdata & Hguid & _). exfalso.
      assert (zone ∈ sample_data) as Hin.
      { change (zone ∈ data sample_visitors). rewrite Hdata.
        apply elem_of_app. right. constructor. }
      unfold sample_data in Hin. rewrite !elem_of_cons, elem_of_nil in Hin.
      destruct Hin as [->|[->|[->|[->|[]]]]]; discriminate Hguid.
Defined.

Lemma C3_columns_follow_selected_witness :
  ∃ table headers,
    create_visitors_table sample_reference sample_visitors ENTRIES = ([], Return table) ∧
    header <$> columns table = "Время" :: headers ∧
    length headers = 3 ∧
    ∀ j guid, ["B"; "X"; "A"] !! j = Some guid →
      ∃ name, headers !! j = Some name ∧
              (∀ row, last_row sample_reference guid row → name = Name row) ∧
              ((∀ row, row ∈ sample_reference → GUID row ≠ Some guid) → name = guid).
Proof.
  apply (C3_columns_follow_selected sample_reference sample_visitors ENTRIES
           ["B"; "X"; "A"]); [reflexivity | discriminate].
Defined.

Lemma C4_lookup_keys_witness :
  guid_to_name sample_reference !! Some "A" = Some "Hall A" ∧
  is_Some (guid_to_name sample_reference !! None).
Proof.
  destruct (C4_lookup_keys sample_reference) as (Hlast & _ & _ & Hkept). split.
  - apply (Hlast "A" {| GUID := Some "A"; Name := "Hall A" |}).
    exists [ {| GUID := Some "A"; Name := "Zone A" |}; {| GUID := None; Name := "Lobby" |} ],
           [ {| GUID := Some "B"; Name := "Zone B" |} ].
    split; [reflexivity|]. split; [reflexivity|].
    constructor; [discriminate|constructor].
  - apply (Hkept {| GUID := None; Name := "Lobby" |}); [|reflexivity].
    apply list_elem_of_In. simpl. tauto.
Defined.

Lemma C5_fetch_validates_data_witness :
  (outcome (fetch_visitors_data (server_replying (JObj ∅)) "127.0.0.1:9006"
              "12.06.2020" (api_guids sample_reference)) = SystemExit 1 ∧
   ∃ text arg,
     last (events (fetch_visitors_data (server_replying (JObj ∅)) "127.0.0.1:9006"
                     "12.06.2020" (api_guids sample_reference)))
     = Some (Log CRITICAL text arg)) ∧
  outcome (fetch_visitors_data (server_replying (encode_visitors sample_visitors))
             "127.0.0.1:9006" "12.06.2020" (api_guids sample_reference))
  = Return (encode_visitors sample_visitors).
Proof.
  split.
  - apply (proj1 (proj2 (C5_fetch_validates_data (server_replying (JObj ∅))
                           "127.0.0.1:9006" "12.06.2020" (api_guids sample_reference)))
             {| status_code := 200; body := Some (JObj ∅) |} (JObj ∅));
      [reflexivity | simpl; lia | reflexivity | left; reflexivity].
  - eapply (proj2 (proj2 (C5_fetch_validates_data
                            (server_replying (encode_visitors sample_visitors))
                            "127.0.0.1:9006" "12.06.2020" (api_guids sample_reference)))
              {| status_code := 200; body := Some (encode_visitors sample_visitors) |});
      [reflexivity | simpl; lia | reflexivity | reflexivity].
Defined.

Lemma C8_absent_selected_witness :
  create_visitors_table sample_reference
    {| picker_date := "12.06.2020"; selected := None; data := sample_data |} ENTRIES
  = ([empty_selection], SystemExit 1) ∧
  create_visitors_table sample_reference
    {| picker_date := "12.06.2020"; selected := None; data := sample_data |} ENTRIES
  = create_visitors_table sample_reference
      {| picker_date := "12.06.2020"; selected := Some []; data := sample_data |} ENTRIES.
Proof.
  apply (C8_absent_selected sample_reference
           {| picker_date := "12.06.2020"; selected := None; data := sample_data |}
           ENTRIES).
  reflexivity.
Defined.


Lemma C10_last_record_wins_witness :
  guid_data_map ["B"; "X"; "A"] sample_data !! "A" = Some sample_slots.
Proof.
  apply (C10_last_record_wins ["B"; "X"; "A"] sample_data "A" sample_zone).
  - apply list_elem_of_In. simpl. tauto.
  - exact sample_zone_last.
Defined.

(** * Further properties of the code *)

(** ** Python's [in], as modelled *)

Lemma prefix_app (s1 s2 : string) :
  String.prefix s1 s2 = true ↔ ∃ post, s2 = s1 +:+ post.
Proof.
  revert s2. induction s1 as [|a s1 IH]; intros s2.
  - split; [intros _; by exists s2|by destruct s2].
  - destruct s2 as [|b s2]; simpl.
    + split; [done|]. by intros [post ?].
    + destruct (Ascii.ascii_dec a b) as [->|Hne].
      * rewrite IH. split; intros [post Hpost]; exists post; [by rewrite Hpost|].
        by injection Hpost.
      * split; [done|]. intros [post Hpost]. injection Hpost as ? ?. congruence.
Qed.

Lemma substringb_spec (needle hay : string) :
  substringb needle hay = true ↔ ∃ pre post, hay = pre +:+ needle +:+ post.
Proof.
  induction hay as [|c hay IH]; cbn [substringb]; rewrite orb_true_iff, prefix_app.
  - split.
    + intros [[post Hpost]|?]; [|done]. by exists "", post.
    + intros ([|? ?] & post & Hpost); [|done]. left. by exists post.
  - rewrite IH. split.
    + intros [[post Hpost]|(pre & post & Hpost)].
      * by exists "", post.
      * exists (String c pre), post. simpl. by rewrite Hpost.
    + intros ([|c' pre] & post & Hpost).
      * left. by exists post.
      * right. injection Hpost as _ Hpost. by exists pre, post.
Qed.

Lemma existsb_is_str key (items : list json) :
  existsb (is_str key) items = true ↔ JStr key ∈ items.
Proof.
  rewrite existsb_exists. split.
  - intros (v & Hin%list_elem_of_In & Hv). destruct v; try done.
    simpl in Hv. apply bool_decide_eq_true in Hv. by subst.
  - intros Hin. exists (JStr key). split; [by apply list_elem_of_In|].
    simpl. by apply bool_decide_eq_true.
Qed.

(** ** The fetcher: what it lets through and how it fails *)

(** What the fetcher logs for a decoded body it rejects on its shape. *)
Lemma fetch_rejected_shape server api_host date guids resp doc :
  server (chart_request api_host date guids) = Replied resp →
  ¬ (400 ≤ status_code resp < 600)%Z →
  body resp = Some doc →
  match doc with
  | JObj fields => ∀ items, fields !! "data" ≠ Some (JArr items)
  | JArr items => True
  | JStr s => True
  | _ => True
  end →
  fetch_visitors_data server api_host date guids
  = fetch_failure api_host date guids
      match doc with
      | JObj _ => data_malformed
      | JArr items => if existsb (is_str "data") items then TypeError else data_malformed
      | JStr s => if substringb "data" s then TypeError else data_malformed
      | _ => TypeError
      end.
Proof.
  intros Hreply Hstatus Hbody Hd. replied_ok Hreply. rewrite Hbody.
  destruct doc as [|b|n|s|items|fields]; cbn; try done.
  - by destruct (substringb "data" s).
  - by destruct (existsb (is_str "data") items).
  - destruct (fields !! "data") as [v|] eqn:Hv; cbn; [|done].
    destruct v; cbn; try done. by destruct (Hd items).
Qed.

(** X1.  Whatever the server does, the fetcher logs its INFO line, sends the
    request, and then either returns a document and logs nothing more, or
    logs one critical line and ends the process with status 1.  No exception
    leaves it. *)
Theorem fetch_never_raises server api_host date guids :
  ∃ tail o,
    fetch_visitors_data server api_host date guids
    = (fetch_info api_host date :: HttpGet (chart_request api_host date guids) :: tail, o) ∧
    ((tail = [] ∧ ∃ doc, o = Return doc) ∨
     (∃ text arg, tail = [Log CRITICAL text arg] ∧ o = SystemExit 1)).
Proof.
  destruct (fetch_outcomes server api_host date guids)
    as [(resp & doc & item & items & _ & _ & _ & _ & Hrun)|(text & arg & Hrun)];
    rewrite Hrun.
  - eexists [], _. split; [done|]. left. eauto.
  - eexists [_], _. split; [done|]. right. eauto.
Qed.

(** X2.  The three failures before the body is looked at: no reply, a status
    from 400 to 599 (whatever the body, even a valid document), a body that
    is not JSON.  Each is caught, logged on one critical line with the
    exception, and ends the process with status 1. *)
Theorem fetch_transport_failures server api_host date guids :
  let req := chart_request api_host date guids in
  (∀ what, server req = Failed what →
     fetch_visitors_data server api_host date guids
     = fetch_failure api_host date guids (RequestError what)) ∧
  (∀ resp, server req = Replied resp → (400 ≤ status_code resp < 600)%Z →
     fetch_visitors_data server api_host date guids
     = fetch_failure api_host date guids (HTTPError (status_code resp))) ∧
  (∀ resp, server req = Replied resp → ¬ (400 ≤ status_code resp < 600)%Z →
     body resp = None →
     fetch_visitors_data server api_host date guids
     = fetch_failure api_host date guids JSONDecodeError).
Proof.
  intros req. split_and!.
  - intros what. apply fetch_no_reply.
  - intros resp. apply fetch_bad_status.
  - intros resp. apply fetch_not_json.
Qed.

(** X3.  Of a decoded body the fetcher checks the [data] field and nothing
    else: two object bodies with the same [data] leave the same trace, and
    either both are returned, each as it came, or both end the process. *)
Theorem fetch_checks_data_only server server' api_host date guids
    resp resp' fields fields' :
  let req := chart_request api_host date guids in
  server req = Replied resp → ¬ (400 ≤ status_code resp < 600)%Z →
  body resp = Some (JObj fields) →
  server' req = Replied resp' → ¬ (400 ≤ status_code resp' < 600)%Z →
  body resp' = Some (JObj fields') →
  fields !! "data" = fields' !! "data" →
  let run := fetch_visitors_data server api_host date guids in
  let run' := fetch_visitors_data server' api_host date guids in
  events run = events run' ∧
  ((outcome run = Return (JObj fields) ∧ outcome run' = Return (JObj fields')) ∨
   (outcome run = SystemExit 1 ∧ outcome run' = SystemExit 1)).
Proof.
  intros req Hs Hst Hb Hs' Hst' Hb' Hdata run run'. subst req run run'.
  destruct (fields !! "data") as [v|] eqn:Hv.
  - destruct v as [|b|n|s|items|fs];
      try (rewrite (fetch_rejected_shape _ _ _ _ _ _ Hs Hst Hb) by (intros ?; congruence);
           rewrite (fetch_rejected_shape _ _ _ _ _ _ Hs' Hst' Hb') by (intros ?; congruence);
           split; [done|by right]).
    destruct items as [|item items].
    + rewrite (fetch_empty _ _ _ _ _ Hs Hst _ Hb Hv).
      rewrite (fetch_empty _ _ _ _ _ Hs' Hst' _ Hb' (eq_sym Hdata)).
      split; [done|by right].
    + rewrite (fetch_accepts _ _ _ _ _ Hs Hst _ Hb item items Hv).
      rewrite (fetch_accepts _ _ _ _ _ Hs' Hst' _ Hb' item items (eq_sym Hdata)).
      split; [done|by left].
  - rewrite (fetch_rejected_shape _ _ _ _ _ _ Hs Hst Hb) by (intros ?; congruence).
    rewrite (fetch_rejected_shape _ _ _ _ _ _ Hs' Hst' Hb') by (intros ?; congruence).
    split; [done|by right].
Qed.

(** X4.  The exception on the critical line of a rejected body.  An object
    without [data], or with a [data] that is not a list, fails the assertion
    and is reported with the assertion's message; so is a string or an array
    that does not contain "data".  null, a boolean and a number are no
    containers, and a string or an array that does contain "data" cannot be
    indexed by it: these are reported as a TypeError. *)
Theorem fetch_rejection_report server api_host date guids resp doc :
  server (chart_request api_host date guids) = Replied resp →
  ¬ (400 ≤ status_code resp < 600)%Z →
  body resp = Some doc →
  let run := fetch_visitors_data server api_host date guids in
  (∀ fields, doc = JObj fields →
     (fields !! "data" = None ∨ ∃ v, fields !! "data" = Some v ∧ is_list v = false) →
     run = fetch_failure api_host date guids data_malformed) ∧
  (doc = JNull ∨ (∃ b, doc = JBool b) ∨ (∃ n, doc = JNum n) →
     run = fetch_failure api_host date guids TypeError) ∧
  (∀ s, doc = JStr s →
     ((∃ pre post, s = pre +:+ "data" +:+ post) →
      run = fetch_failure api_host date guids TypeError) ∧
     (¬ (∃ pre post, s = pre +:+ "data" +:+ post) →
      run = fetch_failure api_host date guids data_malformed)) ∧
  (∀ items, doc = JArr items →
     (JStr "data" ∈ items → run = fetch_failure api_host date guids TypeError) ∧
     (JStr "data" ∉ items → run = fetch_failure api_host date guids data_malformed)).
Proof.
  intros Hs Hst Hb run. subst run. split_and!.
  - intros fields -> Hd.
    apply (fetch_rejected_shape _ _ _ _ _ _ Hs Hst Hb).
    intros items Hitems. destruct Hd as [Hn|(v & Hv & Hl)]; [congruence|].
    rewrite Hitems in Hv. by injection Hv as <-.
  - intros [->|[[b ->]|[n ->]]];
      by apply (fetch_rejected_shape _ _ _ _ _ _ Hs Hst Hb).
  - intros s ->.
    pose proof (fetch_rejected_shape _ _ _ _ _ _ Hs Hst Hb I) as Hrun.
    simpl in Hrun. rewrite Hrun.
    destruct (substringb "data" s) eqn:Hsub.
    + split; [done|]. intros Hno. by apply substringb_spec in Hsub.
    + split; [|done]. intros Hyes%substringb_spec. congruence.
  - intros items ->.
    pose proof (fetch_rejected_shape _ _ _ _ _ _ Hs Hst Hb I) as Hrun.
    simpl in Hrun. rewrite Hrun.
    destruct (existsb (is_str "data") items) eqn:Hex.
    + split; [done|]. intros Hno. by apply existsb_is_str in Hex.
    + split; [|done]. intros Hyes%existsb_is_str. congruence.
Qed.

(** ** The table builder: what the table depends on *)

Section mapping_more.
Implicit Types (zone_guids : list string) (data : list Zone) (guid time : string).

Lemma guid_data_map_selected_records zone_guids data :
  guid_data_map zone_guids (selected_records zone_guids data)
  = guid_data_map zone_guids data.
Proof.
  unfold guid_data_map, selected_records. generalize (∅ : gmap string (list Slot)).
  induction data as [|zone data IH]; intros m0; [done|].
  destruct (decide (zone_guid zone ∈ zone_guids)) as [Hin|Hout].
  - rewrite filter_cons_True by done. simpl. apply IH.
  - rewrite filter_cons_False by done. simpl.
    rewrite bool_decide_eq_false_2 by done. apply IH.
Qed.

Lemma guid_data_map_same_members zone_guids zone_guids' data :
  (∀ guid, guid ∈ zone_guids ↔ guid ∈ zone_guids') →
  guid_data_map zone_guids data = guid_data_map zone_guids' data.
Proof.
  intros Hsame. unfold guid_data_map. generalize (∅ : gmap string (list Slot)).
  induction data as [|zone data IH]; intros m0; [done|]. simpl.
  rewrite (bool_decide_ext _ _ (Hsame (zone_guid zone))). apply IH.
Qed.

Lemma guid_data_map_lookup_NoDup zone_guids data guid slots :
  NoDup (zone_guid <$> data) →
  guid_data_map zone_guids data !! guid = Some slots ↔
  guid ∈ zone_guids ∧
  ∃ zone, zone ∈ data ∧ zone_guid zone = guid ∧ zone_slots zone = slots.
Proof.
  intros Hnd. split.
  - intros (Hin & pre & zone & post & -> & Hg & Hs & _)%guid_data_map_Some.
    split; [done|]. exists zone. split; [|done].
    apply elem_of_app. right. by constructor.
  - intros (Hin & zone & Hzone & <- & <-).
    apply (last_record_unique _ _ Hnd) in Hzone as (pre & post & -> & _ & Hpost).
    by apply guid_data_map_last.
Qed.

Lemma guid_data_map_Permutation zone_guids data data' :
  data ≡ₚ data' → NoDup (zone_guid <$> data) →
  guid_data_map zone_guids data = guid_data_map zone_guids data'.
Proof.
  intros Hperm Hnd. apply map_eq. intros guid. apply option_eq. intros slots.
  assert (NoDup (zone_guid <$> data')) as Hnd' by by rewrite <- Hperm.
  rewrite !guid_data_map_lookup_NoDup by done.
  by setoid_rewrite Hperm.
Qed.

Lemma time_slots_set_empty (m : gmap string (list Slot)) :
  (∀ guid slots, m !! guid = Some slots → slots = []) →
  sorted (time_slots_set m) = [].
Proof.
  intros Hempty.
  assert (time_slots_set m = ∅) as ->.
  { apply set_eq. intros time. rewrite elem_of_time_slots_set. split; [|set_solver].
    intros (guid & slots & slot & Hm & Hslot & _).
    rewrite (Hempty _ _ Hm) in Hslot. by apply elem_of_nil in Hslot. }
  unfold sorted. by rewrite elements_empty.
Qed.

End mapping_more.

(** X5.  The metric decides the title and the cells only: for entries and
    for exits the builder gives the same columns and the same rows of time
    labels. *)
Theorem metric_changes_cells_only reference visitors zone_guids :
  selected visitors = Some zone_guids → zone_guids ≠ [] →
  ∃ entries exits,
    create_visitors_table reference visitors ENTRIES = ([], Return entries) ∧
    create_visitors_table reference visitors EXITS = ([], Return exits) ∧
    columns entries = columns exits ∧
    row_labels entries = row_labels exits ∧
    Forall2 (λ row row', length row = length row') (rows entries) (rows exits).
Proof.
  intros Hsel Hne. eexists _, _.
  split; [by apply create_visitors_table_built|].
  split; [by apply create_visitors_table_built|]. simpl. split_and!.
  - done.
  - unfold row_labels. simpl. by rewrite <- !list_fmap_compose.
  - apply Forall2_fmap, Forall_Forall2_diag, Forall_forall. intros time _.
    simpl. by rewrite !length_fmap.
Qed.

(** X6.  The reference decides the headers only: with any two references
    the builder gives the same title and the same rows. *)
Theorem reference_changes_headers_only reference reference' visitors metric zone_guids :
  selected visitors = Some zone_guids → zone_guids ≠ [] →
  ∃ table table',
    create_visitors_table reference visitors metric = ([], Return table) ∧
    create_visitors_table reference' visitors metric = ([], Return table') ∧
    title table = title table' ∧ rows table = rows table' ∧
    length (columns table) = length (columns table').
Proof.
  intros Hsel Hne. eexists _, _.
  split; [by apply create_visitors_table_built|].
  split; [by apply create_visitors_table_built|]. simpl.
  by rewrite !length_fmap.
Qed.

(** X7.  Records of zones that are not selected count for nothing: the
    builder runs the same on [data] and on [data] without them. *)
Theorem unselected_zones_ignored reference visitors metric :
  create_visitors_table reference
    (with_data visitors
       (selected_records (default [] (selected visitors)) (data visitors))) metric
  = create_visitors_table reference visitors metric.
Proof.
  destruct (selected visitors) as [zone_guids|] eqn:Hsel; simpl.
  - destruct (decide (zone_guids = [])) as [->|Hne].
    + rewrite !create_visitors_table_empty; [done|by rewrite Hsel|simpl; by rewrite Hsel].
    + rewrite (create_visitors_table_built reference visitors metric zone_guids Hsel Hne).
      rewrite (create_visitors_table_built reference (with_data visitors _) metric
                 zone_guids Hsel Hne).
      simpl. by rewrite guid_data_map_selected_records.
  - rewrite !create_visitors_table_empty; [done|by rewrite Hsel|simpl; by rewrite Hsel].
Qed.

(** X8.  When no identifier has two records in [data], the order of the
    records is of no account: the builder runs the same on any
    rearrangement of [data]. *)
Theorem data_order_irrelevant reference visitors metric data' :
  data visitors ≡ₚ data' → NoDup (zone_guid <$> data visitors) →
  create_visitors_table reference (with_data visitors data') metric
  = create_visitors_table reference visitors metric.
Proof.
  intros Hperm Hnd.
  destruct (selected visitors) as [zone_guids|] eqn:Hsel.
  - destruct (decide (zone_guids = [])) as [->|Hne].
    + rewrite !create_visitors_table_empty; [done|by rewrite Hsel|simpl; by rewrite Hsel].
    + rewrite (create_visitors_table_built reference visitors metric zone_guids Hsel Hne).
      rewrite (create_visitors_table_built reference (with_data visitors data') metric
                 zone_guids Hsel Hne).
      simpl. by rewrite (guid_data_map_Permutation _ _ _ Hperm Hnd).
  - rewrite !create_visitors_table_empty; [done|by rewrite Hsel|simpl; by rewrite Hsel].
Qed.

(** X9.  The column of a selected zone that has no record in [data], or
    whose record has an empty series, shows the dimmed zero in every row of
    the table. *)
Theorem zone_without_slots_all_dimmed reference visitors metric zone_guids j guid :
  selected visitors = Some zone_guids → zone_guids !! j = Some guid →
  (∀ zone, last_record (data visitors) guid zone → zone_slots zone = []) →
  ∃ table,
    create_visitors_table reference visitors metric = ([], Return table) ∧
    Forall (λ row, row !! S j = Some "[dim]0[/]") (rows table).
Proof.
  intros Hsel Hj Hnone.
  assert (zone_guids ≠ []) as Hne by (intros ->; by rewrite lookup_nil in Hj).
  eexists. split; [by apply create_visitors_table_built|]. simpl.
  apply Forall_fmap, Forall_forall. intros time _. simpl.
  rewrite list_lookup_fmap, Hj. simpl. f_equal. unfold cell.
  destruct (guid_data_map zone_guids (data visitors) !! guid) as [slots|] eqn:Hm;
    simpl; [|done].
  apply selected_series_inv in Hm as (zone & Hzone & <-).
  by rewrite (Hnone zone Hzone).
Qed.

(** X10.  When no record of a selected zone holds a slot (or [data] has no
    such record at all) the builder still returns a table: all its columns
    and no row. *)
Theorem no_slots_no_rows reference visitors metric zone_guids :
  selected visitors = Some zone_guids → zone_guids ≠ [] →
  (∀ zone, zone ∈ data visitors → zone_guid zone ∈ zone_guids → zone_slots zone = []) →
  ∃ table,
    create_visitors_table reference visitors metric = ([], Return table) ∧
    rows table = [] ∧
    length (columns table) = length zone_guids + 1.
Proof.
  intros Hsel Hne Hempty.
  eexists. split; [by apply create_visitors_table_built|]. simpl. split.
  - rewrite time_slots_set_empty; [done|].
    intros guid slots (Hin & pre & zone & post & Hd & <- & <- & _)%guid_data_map_Some.
    apply Hempty; [|done]. rewrite Hd. apply elem_of_app. right. by constructor.
  - rewrite length_fmap. lia.
Qed.

(** X11.  An identifier listed twice in [selected] gets two columns, with
    the same header and the same cells. *)
Theorem repeated_selection_repeats_column reference visitors metric zone_guids j j' guid :
  selected visitors = Some zone_guids →
  zone_guids !! j = Some guid → zone_guids !! j' = Some guid →
  ∃ table,
    create_visitors_table reference visitors metric = ([], Return table) ∧
    is_Some (columns table !! S j) ∧
    columns table !! S j = columns table !! S j' ∧
    ∀ i, table_cell table i (S j) = table_cell table i (S j').
Proof.
  intros Hsel Hj Hj'.
  assert (zone_guids ≠ []) as Hne by (intros ->; by rewrite lookup_nil in Hj).
  eexists. split; [by apply create_visitors_table_built|]. simpl.
  rewrite !list_lookup_fmap, Hj, Hj'. split_and!; [by eexists|done|].
  intros i. unfold table_cell. simpl. rewrite list_lookup_fmap.
  destruct (sorted _ !! i) as [time|]; [simpl|done].
  by rewrite !list_lookup_fmap, Hj, Hj'.
Qed.

(** X12.  The order of [selected] is the order of the zone columns and
    nothing more: rearranging it leaves the title and the rows of time labels
    as they are, and a zone keeps its header and its cells in whatever
    position it comes to stand. *)
Theorem selection_order_moves_columns reference visitors metric zone_guids zone_guids' :
  selected visitors = Some zone_guids → zone_guids ≠ [] →
  zone_guids ≡ₚ zone_guids' →
  ∃ table table',
    create_visitors_table reference visitors metric = ([], Return table) ∧
    create_visitors_table reference (with_selected visitors zone_guids') metric
    = ([], Return table') ∧
    title table = title table' ∧
    row_labels table = row_labels table' ∧
    ∀ j j' guid,
      zone_guids !! j = Some guid → zone_guids' !! j' = Some guid →
      columns table !! S j = columns table' !! S j' ∧
      ∀ i, table_cell table i (S j) = table_cell table' i (S j').
Proof.
  intros Hsel Hne Hperm.
  assert (zone_guids' ≠ []) as Hne'.
  { intros ->. by apply Permutation_nil_r in Hperm. }
  assert (guid_data_map zone_guids' (data visitors)
          = guid_data_map zone_guids (data visitors)) as Hm.
  { apply guid_data_map_same_members. intros guid. by rewrite Hperm. }
  eexists _, _.
  split; [by apply create_visitors_table_built|].
  split; [by apply (create_visitors_table_built reference
                      (with_selected visitors zone_guids') metric zone_guids')|].
  simpl. rewrite Hm. split_and!.
  - done.
  - unfold row_labels. simpl. by rewrite <- !list_fmap_compose.
  - intros j j' guid Hj Hj'. rewrite !list_lookup_fmap, Hj, Hj'. split; [done|].
    intros i. unfold table_cell. simpl. rewrite !list_lookup_fmap.
    destruct (sorted _ !! i) as [time|]; [simpl|done].
    by rewrite !list_lookup_fmap, Hj, Hj'.
Qed.

(** ** What a cell tells *)

Section rendering.

Lemma pretty_N_char_digit (d : N) : pretty_N_char d ≠ "["%char.
Proof. unfold pretty_N_char. by repeat case_match. Qed.

Lemma pretty_N_go_head (x : N) (s : string) :
  (0 < x)%N → ∃ d rest, pretty_N_go x s = String (pretty_N_char d) rest.
Proof.
  revert s. induction (N.lt_wf_0 x) as [x _ IH]. intros s Hx.
  rewrite pretty_N_go_step by done.
  destruct (decide (x `div` 10 = 0)%N) as [->|Hdiv].
  - rewrite pretty_N_go_0. by eexists _, _.
  - apply IH; [by apply N.div_lt|by apply N.neq_0_lt_0].
Qed.

Lemma pretty_pos_head (p : positive) :
  ∃ d rest, pretty (N.pos p) = String (pretty_N_char d) rest.
Proof.
  unfold pretty, pretty_N. rewrite decide_False by done.
  apply pretty_N_go_head. lia.
Qed.

(** The decimal form of an int never is the dimmed marker. *)
Lemma str_not_marker (n : Z) : str n ≠ "[dim]0[/]".
Proof.
  unfold str. destruct n as [|p|p]; [done|..].
  - change (pretty (Z.pos p)) with (pretty (N.pos p)).
    destruct (pretty_pos_head p) as (d & rest & ->).
    intros [= Hd _]. by apply (pretty_N_char_digit d).
  - change (pretty (Z.neg p)) with ("-" +:+ pretty (N.pos p)). done.
Qed.

Lemma dim_zero_str (n : Z) :
  dim_zero (str n) = if decide (n = 0%Z) then "[dim]0[/]" else str n.
Proof.
  unfold dim_zero. destruct (decide (n = 0%Z)) as [->|Hn]; [done|].
  rewrite bool_decide_eq_false_2; [done|]. by rewrite str_zero.
Qed.

Lemma dim_zero_str_inj (n n' : Z) : dim_zero (str n) = dim_zero (str n') → n = n'.
Proof.
  rewrite !dim_zero_str. unfold str.
  destruct (decide (n = 0%Z)) as [->|Hn], (decide (n' = 0%Z)) as [->|Hn']; try done.
  - intros Heq. symmetry in Heq. by apply str_not_marker in Heq.
  - intros Heq. by apply str_not_marker in Heq.
  - apply (inj pretty).
Qed.

End rendering.

Lemma table_cell_first_slot reference visitors metric zone_guids :
  selected visitors = Some zone_guids → zone_guids ≠ [] →
  ∃ table,
    create_visitors_table reference visitors metric = ([], Return table) ∧
    ∀ i j time guid zone slot,
      table_cell table i 0 = Some time → zone_guids !! j = Some guid →
      last_record (data visitors) guid zone →
      first_slot (zone_slots zone) time slot →
      table_cell table i (S j) = Some (dim_zero (str (metric_field metric slot))).
Proof.
  intros Hsel Hne.
  destruct (table_cell_built reference visitors metric zone_guids Hsel Hne)
    as (table & Hrun & Hcell).
  exists table. split; [done|].
  intros i j time guid zone slot Hi Hj Hzone Hslot.
  rewrite (Hcell i j time guid Hi Hj). unfold cell.
  rewrite (selected_series visitors zone_guids guid zone);
    [|by eapply list_elem_of_lookup_2|done].
  simpl. by rewrite (scan_slots_first metric time _ slot).
Qed.

(** X13.  Where a zone has a slot for the row's time the cell tells its
    count: the cell is the dimmed marker exactly when the count is zero,
    otherwise it is the count in decimal (with its sign when negative), and
    two such cells with the same text stand for the same count. *)
Theorem cells_show_counts reference visitors metric zone_guids :
  selected visitors = Some zone_guids → zone_guids ≠ [] →
  ∃ table,
    create_visitors_table reference visitors metric = ([], Return table) ∧
    ∀ i j time guid zone slot,
      table_cell table i 0 = Some time → zone_guids !! j = Some guid →
      last_record (data visitors) guid zone →
      first_slot (zone_slots zone) time slot →
      (table_cell table i (S j) = Some "[dim]0[/]" ↔ metric_field metric slot = 0%Z) ∧
      (metric_field metric slot ≠ 0%Z →
       table_cell table i (S j) = Some (str (metric_field metric slot))) ∧
      ∀ i' j' time' guid' zone' slot',
        table_cell table i' 0 = Some time' → zone_guids !! j' = Some guid' →
        last_record (data visitors) guid' zone' →
        first_slot (zone_slots zone') time' slot' →
        table_cell table i (S j) = table_cell table i' (S j') →
        metric_field metric slot = metric_field metric slot'.
Proof.
  intros Hsel Hne.
  destruct (table_cell_first_slot reference visitors metric zone_guids Hsel Hne)
    as (table & Hrun & Hcell).
  exists table. split; [done|].
  intros i j time guid zone slot Hi Hj Hzone Hslot.
  rewrite (Hcell i j time guid zone slot Hi Hj Hzone Hslot). split_and!.
  - rewrite dim_zero_str. destruct (decide (metric_field metric slot = 0%Z)) as [Hz|Hz].
    + by split.
    + split; [|done]. intros [= Heq]. by apply str_not_marker in Heq.
  - intros Hz. rewrite dim_zero_str. by rewrite decide_False.
  - intros i' j' time' guid' zone' slot' Hi' Hj' Hzone' Hslot'.
    rewrite (Hcell i' j' time' guid' zone' slot' Hi' Hj' Hzone' Hslot').
    intros [= Heq]. by apply dim_zero_str_inj.
Qed.

(** ** main: the warning, the print, the absent key *)




(** X15.  For a response without the key [selected] main stops on the
    KeyError of its own lookup: nothing is logged and nothing printed.  The
    guard of the builder, which would have logged the empty selection and
    ended the process with status 1, is never reached from main. *)
Theorem main_report_absent_key reference visitors metric :
  selected visitors = None →
  main_report reference visitors metric = ([], Raise (KeyError "selected")) ∧
  create_visitors_table reference visitors metric = ([empty_selection], SystemExit 1).
Proof.
  intros Hsel. split.
  - unfold main_report. by rewrite Hsel.
  - apply create_visitors_table_empty. by rewrite Hsel.
Qed.

(** ** Loading the reference, and the head of main *)

Section loading.
Variable read_excel : string → ReadResult.
Variable file_path : string.

Lemma load_read_failed e :
  read_excel file_path = ReadFailed e →
  load_reference_data read_excel file_path = load_failure file_path e.
Proof. intros Hread. unfold load_reference_data. by rewrite Hread. Qed.

Lemma load_columns_missing df :
  read_excel file_path = Sheet df →
  ¬ ("GUID" ∈ df_columns df ∧ "Наименование" ∈ df_columns df) →
  load_reference_data read_excel file_path = load_failure file_path columns_missing.
Proof.
  intros Hread Hcols. unfold load_reference_data. rewrite Hread. cbn.
  destruct (decide ("GUID" ∈ df_columns df)) as [Hg|Hg].
  - rewrite (bool_decide_eq_true_2 _ Hg).
    rewrite bool_decide_eq_false_2 by tauto. reflexivity.
  - rewrite (bool_decide_eq_false_2 _ Hg). reflexivity.
Qed.

Lemma load_sheet df :
  read_excel file_path = Sheet df →
  "GUID" ∈ df_columns df → "Наименование" ∈ df_columns df →
  load_reference_data read_excel file_path = ([load_info file_path], Return df).
Proof.
  intros Hread Hg Hn. unfold load_reference_data. rewrite Hread. cbn.
  rewrite (bool_decide_eq_true_2 _ Hg), (bool_decide_eq_true_2 _ Hn). reflexivity.
Qed.

End loading.

(** X16.  The loader returns the sheet it read, untouched, when the sheet
    has both columns GUID and Наименование.  A sheet that lacks one of them
    and a read that raises end alike: the exception (for the columns, the
    assertion with its message) is logged on one critical line and the
    process ends with status 1.  So the loader never lets an exception out,
    and what it returns has both columns. *)
Theorem load_reference_data_outcomes read_excel file_path :
  let run := load_reference_data read_excel file_path in
  (∀ e, read_excel file_path = ReadFailed e → run = load_failure file_path e) ∧
  (∀ df, read_excel file_path = Sheet df →
     ¬ ("GUID" ∈ df_columns df ∧ "Наименование" ∈ df_columns df) →
     run = load_failure file_path columns_missing) ∧
  (∀ df, read_excel file_path = Sheet df →
     "GUID" ∈ df_columns df → "Наименование" ∈ df_columns df →
     run = ([load_info file_path], Return df)) ∧
  (∀ df, outcome run = Return df →
     read_excel file_path = Sheet df ∧
     "GUID" ∈ df_columns df ∧ "Наименование" ∈ df_columns df) ∧
  (∀ e, outcome run ≠ Raise e).
Proof.
  intros run. subst run. split_and!.
  - apply load_read_failed.
  - apply load_columns_missing.
  - apply load_sheet.
  - intros df. destruct (read_excel file_path) as [e|df'] eqn:Hread.
    { by rewrite (load_read_failed _ _ e Hread). }
    destruct (decide ("GUID" ∈ df_columns df' ∧ "Наименование" ∈ df_columns df'))
      as [[Hg Hn]|Hcols].
    + rewrite (load_sheet _ _ df' Hread Hg Hn). by intros [= <-].
    + by rewrite (load_columns_missing _ _ df' Hread Hcols).
  - intros e'. destruct (read_excel file_path) as [e|df'] eqn:Hread.
    { by rewrite (load_read_failed _ _ e Hread). }
    destruct (decide ("GUID" ∈ df_columns df' ∧ "Наименование" ∈ df_columns df'))
      as [[Hg Hn]|Hcols].
    + by rewrite (load_sheet _ _ df' Hread Hg Hn).
    + by rewrite (load_columns_missing _ _ df' Hread Hcols).
Qed.

Lemma fetch_sends_one_request server api_host date guids :
  filter is_http_get (events (fetch_visitors_data server api_host date guids))
  = [HttpGet (chart_request api_host date guids)].
Proof.
  destruct (fetch_outcomes server api_host date guids)
    as [(resp & doc & item & items & _ & _ & _ & _ & Hrun)|(text & arg & Hrun)];
    by rewrite Hrun.
Qed.

(** X17.  The head of main.  When the reference cannot be loaded the
    process ends with status 1 and no request is sent.  When it is loaded,
    one request is sent, its [objects] being the GUID cells of the sheet that
    are not empty, in the order of the rows, joined by commas; main then goes
    on with the response if and only if the fetcher returned it. *)
Theorem main_fetch_request read_excel server reference_file api_host date :
  let run := main_fetch read_excel server reference_file api_host date in
  (((∃ e, read_excel reference_file = ReadFailed e) ∨
    (∃ df, read_excel reference_file = Sheet df ∧
           ¬ ("GUID" ∈ df_columns df ∧ "Наименование" ∈ df_columns df))) →
   outcome run = SystemExit 1 ∧ filter is_http_get (events run) = []) ∧
  (∀ df, read_excel reference_file = Sheet df →
     "GUID" ∈ df_columns df → "Наименование" ∈ df_columns df →
     let fetched := fetch_visitors_data server api_host date (omap GUID (df_rows df)) in
     events run = load_info reference_file :: events fetched ∧
     filter is_http_get (events run)
     = [HttpGet {| url := "http://" +:+ api_host +:+ "/borders/chart-data";
                   params := [ ("mode", "halfhour"); ("date", date);
                               ("objects", String.concat "," (omap GUID (df_rows df))) ];
                   timeout := 10 |}] ∧
     (∀ doc, outcome run = Return (df, doc) ↔ outcome fetched = Return doc) ∧
     (outcome run = SystemExit 1 ↔ outcome fetched = SystemExit 1)).
Proof.
  intros run. subst run. split.
  - intros [[e Hread]|(df & Hread & Hcols)]; unfold main_fetch.
    + by rewrite (load_read_failed _ _ e Hread).
    + by rewrite (load_columns_missing _ _ df Hread Hcols).
  - intros df Hread Hg Hn fetched. subst fetched. unfold main_fetch.
    rewrite (load_sheet _ _ df Hread Hg Hn).
    unfold mbind, Run_bind. cbn [run_bind]. unfold api_guids.
    pose proof (fetch_sends_one_request server api_host date (omap GUID (df_rows df)))
      as Hget.
    destruct (fetch_visitors_data server api_host date (omap GUID (df_rows df)))
      as [tr [doc|code|e]]; cbn in *.
    + rewrite app_nil_r. split_and!; [done|done| |done].
      intros doc'. split; by intros [= ->].
    + split_and!; [done|done| |]; [intros doc'; split; by intros [=]|].
      split; by intros [= ->].
    + split_and!; [done|done| |]; [intros doc'|]; split; by intros [=].
Qed.

(** X18.  The list of identifiers sent to the API keeps what the lookup of
    names merges: a GUID in several rows is listed once for each of them,
    and only rows without a GUID are left out. *)
Theorem api_guids_keeps_repeats reference :
  (∀ guid, length (filter (λ g, g = guid) (api_guids reference))
           = length (filter (λ row, GUID row = Some guid) reference)) ∧
  length (api_guids reference) = length (dropna reference) ∧
  (api_guids reference = [] ↔ Forall (λ row, GUID row = None) reference).
Proof.
  unfold api_guids, dropna. split_and!.
  - intros guid. induction reference as [|row l IH]; [done|]. simpl.
    destruct (GUID row) as [g|] eqn:Hrow; simpl.
    + destruct (decide (g = guid)) as [->|Hne].
      * rewrite !filter_cons_True by (done || by rewrite Hrow).
        cbn [length]. f_equal. exact IH.
      * rewrite !filter_cons_False by (done || rewrite Hrow; congruence). apply IH.
    + rewrite filter_cons_False by (by rewrite Hrow). apply IH.
  - induction reference as [|row l IH]; [done|]. simpl.
    destruct (GUID row) as [g|] eqn:Hrow.
    + rewrite filter_cons_True by (rewrite Hrow; by eexists).
      cbn [length]. f_equal. exact IH.
    + rewrite filter_cons_False by (rewrite Hrow; by intros [? ?]). apply IH.
  - induction reference as [|row l IH]; [done|]. simpl.
    destruct (GUID row) as [g|] eqn:Hrow.
    + split; [done|]. intros [Hr _]%Forall_cons. congruence.
    + rewrite IH, Forall_cons. tauto.
Qed.

(** * The further properties at the sample inputs *)

Lemma fetch_transport_failures_witness :
  fetch_visitors_data (server_down "timed out") "127.0.0.1:9006" "12.06.2020" ["A"]
  = fetch_failure "127.0.0.1:9006" "12.06.2020" ["A"] (RequestError "timed out") ∧
  fetch_visitors_data
    (server_status 404 (Some (encode_visitors sample_visitors)))
    "127.0.0.1:9006" "12.06.2020" ["A"]
  = fetch_failure "127.0.0.1:9006" "12.06.2020" ["A"] (HTTPError 404) ∧
  fetch_visitors_data (server_status 200 None) "127.0.0.1:9006" "12.06.2020" ["A"]
  = fetch_failure "127.0.0.1:9006" "12.06.2020" ["A"] JSONDecodeError.
Proof.
  split_and!.
  - apply (proj1 (fetch_transport_failures (server_down "timed out")
                    "127.0.0.1:9006" "12.06.2020" ["A"]) "timed out").
    reflexivity.
  - apply (proj1 (proj2 (fetch_transport_failures
                    (server_status 404 (Some (encode_visitors sample_visitors)))
                    "127.0.0.1:9006" "12.06.2020" ["A"]))
             {| status_code := 404; body := Some (encode_visitors sample_visitors) |});
      [reflexivity | simpl; lia].
  - apply (proj2 (proj2 (fetch_transport_failures (server_status 200 None)
                    "127.0.0.1:9006" "12.06.2020" ["A"]))
             {| status_code := 200; body := None |});
      [reflexivity | simpl; lia | reflexivity].
Defined.

Lemma fetch_checks_data_only_witness :
  let run := fetch_visitors_data (server_replying (encode_visitors sample_visitors))
               "127.0.0.1:9006" "12.06.2020" ["A"] in
  let run' := fetch_visitors_data
                (server_status 201 (Some (JObj {[ "data" := JArr (encode_zone <$> sample_data) ]})))
                "127.0.0.1:9006" "12.06.2020" ["A"] in
  events run = events run' ∧
  ((outcome run = Return (encode_visitors sample_visitors) ∧
    outcome run' = Return (JObj {[ "data" := JArr (encode_zone <$> sample_data) ]})) ∨
   (outcome run = SystemExit 1 ∧ outcome run' = SystemExit 1)).
Proof.
  apply (fetch_checks_data_only
           (server_replying (encode_visitors sample_visitors))
           (server_status 201 (Some (JObj {[ "data" := JArr (encode_zone <$> sample_data) ]})))
           "127.0.0.1:9006" "12.06.2020" ["A"]
           {| status_code := 200; body := Some (encode_visitors sample_visitors) |}
           {| status_code := 201;
              body := Some (JObj {[ "data" := JArr (encode_zone <$> sample_data) ]}) |});
    [reflexivity | simpl; lia | reflexivity | reflexivity | simpl; lia | reflexivity
    | reflexivity].
Defined.

Lemma fetch_rejection_report_witness :
  fetch_visitors_data (server_replying (JObj {[ "data" := JStr "none" ]}))
    "127.0.0.1:9006" "12.06.2020" ["A"]
  = fetch_failure "127.0.0.1:9006" "12.06.2020" ["A"] data_malformed ∧
  fetch_visitors_data (server_replying (JStr "no data today"))
    "127.0.0.1:9006" "12.06.2020" ["A"]
  = fetch_failure "127.0.0.1:9006" "12.06.2020" ["A"] TypeError.
Proof.
  split.
  - apply (proj1 (fetch_rejection_report
                    (server_replying (JObj {[ "data" := JStr "none" ]}))
                    "127.0.0.1:9006" "12.06.2020" ["A"]
                    {| status_code := 200; body := Some (JObj {[ "data" := JStr "none" ]}) |}
                    (JObj {[ "data" := JStr "none" ]})
                    eq_refl ltac:(simpl; lia) eq_refl)
             {[ "data" := JStr "none" ]} eq_refl).
    right. exists (JStr "none"). split; reflexivity.
  - apply (proj1 (proj1 (proj2 (proj2 (fetch_rejection_report
                    (server_replying (JStr "no data today"))
                    "127.0.0.1:9006" "12.06.2020" ["A"]
                    {| status_code := 200; body := Some (JStr "no data today") |}
                    (JStr "no data today")
                    eq_refl ltac:(simpl; lia) eq_refl)))
             "no data today" eq_refl)).
    exists "no ", " today". reflexivity.
Defined.

Lemma metric_changes_cells_only_witness :
  ∃ entries exits,
    create_visitors_table sample_reference sample_visitors ENTRIES = ([], Return entries) ∧
    create_visitors_table sample_reference sample_visitors EXITS = ([], Return exits) ∧
    columns entries = columns exits ∧
    row_labels entries = row_labels exits ∧
    Forall2 (λ row row', length row = length row') (rows entries) (rows exits).
Proof.
  apply (metric_changes_cells_only sample_reference sample_visitors ["B"; "X"; "A"]);
    [reflexivity | discriminate].
Defined.

Lemma reference_changes_headers_only_witness :
  ∃ table table',
    create_visitors_table sample_reference sample_visitors ENTRIES = ([], Return table) ∧
    create_visitors_table [] sample_visitors ENTRIES = ([], Return table') ∧
    title table = title table' ∧ rows table = rows table' ∧
    length (columns table) = length (columns table').
Proof.
  apply (reference_changes_headers_only sample_reference [] sample_visitors ENTRIES
           ["B"; "X"; "A"]); [reflexivity | discriminate].
Defined.

Lemma data_order_irrelevant_witness :
  create_visitors_table sample_reference
    (with_data sample_unique [sample_zone_B; sample_zone; sample_zone_Z]) ENTRIES
  = create_visitors_table sample_reference sample_unique ENTRIES.
Proof.
  apply (data_order_irrelevant sample_reference sample_unique ENTRIES
           [sample_zone_B; sample_zone; sample_zone_Z]).
  - apply (Permutation_rev [sample_zone_Z; sample_zone; sample_zone_B]).
  - repeat constructor; simpl; rewrite ?elem_of_cons, ?elem_of_nil;
      intros Hin; repeat destruct Hin as [Hin|Hin]; done.
Defined.

Lemma zone_without_slots_all_dimmed_witness :
  ∃ table,
    create_visitors_table sample_reference sample_visitors ENTRIES = ([], Return table) ∧
    Forall (λ row, row !! 2 = Some "[dim]0[/]") (rows table).
Proof.
  apply (zone_without_slots_all_dimmed sample_reference sample_visitors ENTRIES
           ["B"; "X"; "A"] 1 "X"); [reflexivity | reflexivity |].
  intros zone (pre & post & Hdata & Hguid & _).
  assert (zone ∈ sample_data) as Hin.
  { change (zone ∈ data sample_visitors). rewrite Hdata.
    apply elem_of_app. right. constructor. }
  unfold sample_data in Hin. rewrite !elem_of_cons, elem_of_nil in Hin.
  destruct Hin as [->|[->|[->|[->|[]]]]]; discriminate Hguid.
Defined.

Lemma no_slots_no_rows_witness :
  ∃ table,
    create_visitors_table sample_reference (with_selected sample_visitors ["X"; "Y"])
      ENTRIES = ([], Return table) ∧
    rows table = [] ∧
    length (columns table) = 3.
Proof.
  apply (no_slots_no_rows sample_reference (with_selected sample_visitors ["X"; "Y"])
           ENTRIES ["X"; "Y"]); [reflexivity | discriminate |].
  intros zone Hin Hsel. exfalso. simpl in Hin. unfold sample_data in Hin.
  rewrite !elem_of_cons, elem_of_nil in Hin. rewrite !elem_of_cons, elem_of_nil in Hsel.
  destruct Hin as [->|[->|[->|[->|[]]]]]; destruct Hsel as [Hs|[Hs|[]]]; discriminate Hs.
Defined.

Lemma repeated_selection_repeats_column_witness :
  ∃ table,
    create_visitors_table sample_reference (with_selected sample_visitors ["A"; "B"; "A"])
      EXITS = ([], Return table) ∧
    is_Some (columns table !! 1) ∧
    columns table !! 1 = columns table !! 3 ∧
    ∀ i, table_cell table i 1 = table_cell table i 3.
Proof.
  apply (repeated_selection_repeats_column sample_reference
           (with_selected sample_visitors ["A"; "B"; "A"]) EXITS ["A"; "B"; "A"] 0 2 "A");
    reflexivity.
Defined.

Lemma selection_order_moves_columns_witness :
  ∃ table table',
    create_visitors_table sample_reference sample_visitors ENTRIES = ([], Return table) ∧
    create_visitors_table sample_reference (with_selected sample_visitors ["A"; "B"; "X"])
      ENTRIES = ([], Return table') ∧
    title table = title table' ∧
    row_labels table = row_labels table' ∧
    ∀ j j' guid,
      ["B"; "X"; "A"] !! j = Some guid → ["A"; "B"; "X"] !! j' = Some guid →
      columns table !! S j = columns table' !! S j' ∧
      ∀ i, table_cell table i (S j) = table_cell table' i (S j').
Proof.
  apply (selection_order_moves_columns sample_reference sample_visitors ENTRIES
           ["B"; "X"; "A"] ["A"; "B"; "X"]); [reflexivity | discriminate |].
  apply (Permutation_app_comm ["B"; "X"] ["A"]).
Defined.

Lemma cells_show_counts_witness :
  ∃ table,
    create_visitors_table sample_reference sample_visitors ENTRIES = ([], Return table) ∧
    ∀ i j time guid zone slot,
      table_cell table i 0 = Some time → ["B"; "X"; "A"] !! j = Some guid →
      last_record sample_data guid zone →
      first_slot (zone_slots zone) time slot →
      (table_cell table i (S j) = Some "[dim]0[/]" ↔ slot_entries slot = 0%Z) ∧
      (slot_entries slot ≠ 0%Z →
       table_cell table i (S j) = Some (str (slot_entries slot))) ∧
      ∀ i' j' time' guid' zone' slot',
        table_cell table i' 0 = Some time' → ["B"; "X"; "A"] !! j' = Some guid' →
        last_record sample_data guid' zone' →
        first_slot (zone_slots zone') time' slot' →
        table_cell table i (S j) = table_cell table i' (S j') →
        slot_entries slot = slot_entries slot'.
Proof.
  apply (cells_show_counts sample_reference sample_visitors ENTRIES ["B"; "X"; "A"]);
    [reflexivity | discriminate].
Defined.


Lemma main_report_absent_key_witness :
  main_report sample_reference
    {| picker_date := "12.06.2020"; selected := None; data := sample_data |} ENTRIES
  = ([], Raise (KeyError "selected")) ∧
  create_visitors_table sample_reference
    {| picker_date := "12.06.2020"; selected := None; data := sample_data |} ENTRIES
  = ([empty_selection], SystemExit 1).
Proof.
  apply (main_report_absent_key sample_reference
           {| picker_date := "12.06.2020"; selected := None; data := sample_data |}
           ENTRIES).
  reflexivity.
Defined.

Lemma load_reference_data_outcomes_witness :
  load_reference_data (disk_failing (KeyError "Sheet1")) "Справочник.xlsx"
  = load_failure "Справочник.xlsx" (KeyError "Sheet1") ∧
  load_reference_data
    (disk_with {| df_columns := ["GUID"; "Name"]; df_rows := sample_reference |})
    "Справочник.xlsx"
  = load_failure "Справочник.xlsx" columns_missing ∧
  load_reference_data (disk_with sample_frame) "Справочник.xlsx"
  = ([load_info "Справочник.xlsx"], Return sample_frame).
Proof.
  split_and!.
  - apply (proj1 (load_reference_data_outcomes (disk_failing (KeyError "Sheet1"))
                    "Справочник.xlsx")).
    reflexivity.
  - apply (proj1 (proj2 (load_reference_data_outcomes
                    (disk_with {| df_columns := ["GUID"; "Name"];
                                  df_rows := sample_reference |})
                    "Справочник.xlsx"))
             {| df_columns := ["GUID"; "Name"]; df_rows := sample_reference |});
      [reflexivity|].
    simpl. rewrite !elem_of_cons, !elem_of_nil. intros [_ [Hn|[Hn|[]]]]; discriminate Hn.
  - apply (proj1 (proj2 (proj2 (load_reference_data_outcomes (disk_with sample_frame)
                    "Справочник.xlsx"))) sample_frame); [reflexivity|..];
      simpl; rewrite !elem_of_cons; tauto.
Defined.

Lemma main_fetch_request_witness :
  (outcome (main_fetch (disk_failing (KeyError "Sheet1")) (server_down "unreachable")
              "Справочник.xlsx" "127.0.0.1:9006" "12.06.2020") = SystemExit 1 ∧
   filter is_http_get
     (events (main_fetch (disk_failing (KeyError "Sheet1")) (server_down "unreachable")
                "Справочник.xlsx" "127.0.0.1:9006" "12.06.2020")) = []) ∧
  filter is_http_get
    (events (main_fetch (disk_with sample_frame)
               (server_replying (encode_visitors sample_visitors))
               "Справочник.xlsx" "127.0.0.1:9006" "12.06.2020"))
  = [HttpGet {| url := "http://127.0.0.1:9006/borders/chart-data";
                params := [ ("mode", "halfhour"); ("date", "12.06.2020");
                            ("objects", "A,A,B") ];
                timeout := 10 |}].
Proof.
  split.
  - apply (proj1 (main_fetch_request (disk_failing (KeyError "Sheet1"))
                    (server_down "unreachable")
                    "Справочник.xlsx" "127.0.0.1:9006" "12.06.2020")).
    left. exists (KeyError "Sheet1"). reflexivity.
  - apply (proj2 (main_fetch_request (disk_with sample_frame)
                    (server_replying (encode_visitors sample_visitors))
                    "Справочник.xlsx" "127.0.0.1:9006" "12.06.2020") sample_frame);
      [reflexivity|..]; simpl; rewrite !elem_of_cons; tauto.
Defined.

(** * The builder on the decoded body *)

Lemma follow_done {A B} (a : A) (k : A → option (Run B)) : follow (done a) k = k a.
Proof. unfold follow, done. simpl. by destruct (k a) as [[tr o]|]. Qed.

Lemma follow_fail {A B} (e : Exn) (k : A → option (Run B)) :
  follow (fail e) k = fail e.
Proof. done. Qed.

Section following.
Context {A B : Type}.

Lemma each_done (f : A → option (Run B)) (l : list A) (l' : list B) :
  Forall2 (λ x y, f x = done y) l l' → each f l = done l'.
Proof.
  induction 1 as [|x y l l' Hx _ IH]; cbn [each]; [done|].
  by rewrite Hx, follow_done, IH, follow_done.
Qed.

Lemma each_done_fmap (f : A → option (Run B)) (g : A → B) (l : list A) :
  (∀ x, x ∈ l → f x = done (g x)) → each f l = done (g <$> l).
Proof.
  intros Hf. apply each_done, Forall2_fmap_r, Forall_Forall2_diag, Forall_forall.
  exact Hf.
Qed.

End following.

Section ordered_dict.
Context {V W : Type}.
Implicit Types (d : list (string * V)) (k : string).

Lemma dict_lookup_set k k' (v : V) d :
  dict_lookup k (dict_set k' v d)
  = if bool_decide (k = k') then Some v else dict_lookup k d.
Proof.
  induction d as [|[k0 v0] d IH]; simpl.
  - done.
  - destruct (decide (k' = k0)) as [->|Hne0].
    + rewrite bool_decide_eq_true_2 by done. simpl. by case_bool_decide.
    + rewrite (bool_decide_eq_false_2 (k' = k0)) by done. simpl. rewrite IH.
      case_bool_decide; [|done]. subst. by rewrite bool_decide_eq_false_2.
Qed.

Lemma dict_set_keys k (v : V) d :
  ∀ k0, k0 ∈ (dict_set k v d).*1 ↔ k0 = k ∨ k0 ∈ d.*1.
Proof.
  induction d as [|[k1 v1] d IH]; intros k0; simpl.
  - rewrite list_elem_of_singleton, elem_of_nil. tauto.
  - case_bool_decide as Hk; simpl; rewrite !elem_of_cons.
    + subst. tauto.
    + rewrite IH. tauto.
Qed.

Lemma dict_set_NoDup k (v : V) d : NoDup d.*1 → NoDup (dict_set k v d).*1.
Proof.
  induction d as [|[k1 v1] d IH]; simpl; intros Hnd.
  - repeat constructor. by intros ?%elem_of_nil.
  - apply NoDup_cons in Hnd as [Hnotin Hnd].
    case_bool_decide as Hk; simpl.
    + subst. by constructor.
    + constructor; [|by apply IH]. rewrite dict_set_keys.
      intros [?|?]; [congruence|done].
Qed.

Lemma dict_lookup_elem_of k (v : V) d :
  NoDup d.*1 → (k, v) ∈ d ↔ dict_lookup k d = Some v.
Proof.
  induction d as [|[k1 v1] d IH]; simpl; intros Hnd.
  - split; [by intros ?%elem_of_nil|done].
  - apply NoDup_cons in Hnd as [Hnotin Hnd]. rewrite elem_of_cons.
    case_bool_decide as Hk.
    + subst. split; [|intros [= ->]; by left].
      intros [[= ->]|Hin]; [done|]. exfalso. apply Hnotin.
      apply list_elem_of_fmap. by exists (k1, v).
    + rewrite <- IH by done. split; [|by right]. by intros [[= ? ?]|?].
Qed.

Lemma dict_set_related (R : V → W → Prop) k (v : V) (w : W) d (d' : list (string * W)) :
  Forall2 (λ a b, a.1 = b.1 ∧ R a.2 b.2) d d' → R v w →
  Forall2 (λ a b, a.1 = b.1 ∧ R a.2 b.2) (dict_set k v d) (dict_set k w d').
Proof.
  intros Hd Hv. induction Hd as [|[k1 v1] [k2 w2] d d' [Hk Hr] Hd IH]; simpl in *.
  - by repeat constructor.
  - subst k2. case_bool_decide; by constructor.
Qed.

Lemma dict_lookup_related (R : V → W → Prop) k d (d' : list (string * W)) :
  Forall2 (λ a b, a.1 = b.1 ∧ R a.2 b.2) d d' →
  option_Forall2 R (dict_lookup k d) (dict_lookup k d').
Proof.
  induction 1 as [|[k1 v1] [k2 w2] d d' [Hk Hr] _ IH]; simpl in *.
  - constructor.
  - subst k2. case_bool_decide; [by constructor|done].
Qed.

End ordered_dict.

Section decoded_body.
Implicit Types (zone_guids : list string) (zones : list Zone) (guid time : string).

Lemma decode_str_Some (v : json) (s : string) : decode_str v = Some s → v = JStr s.
Proof. destruct v; simpl; congruence. Qed.

Lemma mapM_decode_str (items : list json) (l : list string) :
  mapM decode_str items = Some l → items = JStr <$> l.
Proof.
  intros Hitems%mapM_Some_1.
  induction Hitems as [|v s items l Hv%decode_str_Some _ IH]; [done|].
  simpl. by rewrite Hv, IH.
Qed.

Lemma each_py_key (l : list string) : each py_key (JStr <$> l) = done l.
Proof.
  apply each_done, Forall2_fmap_l, Forall_Forall2_diag, Forall_forall. done.
Qed.

Lemma decode_slot_Some (v : json) (slot : Slot) :
  decode_slot v = Some slot →
  ∃ rest, v = JArr (JStr (slot_time slot) :: JNum (slot_entries slot)
                    :: JNum (slot_exits slot) :: rest).
Proof.
  destruct v as [| | | |items|]; try done.
  destruct items as [|[| | |time| |] [|[| |entries| | |] [|[| |exits| | |] rest]]];
    try done.
  simpl. intros [= <-]. by exists rest.
Qed.

Lemma decode_zone_Some (v : json) (zone : Zone) :
  decode_zone v = Some zone →
  ∃ a b slots rest,
    v = JArr (JStr (zone_guid zone) :: a :: b :: JArr slots :: rest) ∧
    mapM decode_slot slots = Some (zone_slots zone).
Proof.
  destruct v as [| | | |items|]; try done.
  destruct items as [|[| | |g| |] [|a [|b [|[| | | |slots|] rest]]]]; try done.
  simpl. destruct (mapM decode_slot slots) as [decoded|] eqn:Hslots; [|done].
  simpl. intros [= <-]. by exists a, b, slots, rest.
Qed.

Lemma read_slot_decoded (v : json) (slot : Slot) :
  decode_slot v = Some slot → read_slot v = done (slot_time slot, v).
Proof. intros Hv. by destruct (decode_slot_Some _ _ Hv) as [rest ->]. Qed.

Lemma read_series_decoded (raw : string * json) (typed : string * list Slot) :
  holds_series raw typed →
  ∃ labelled, read_series raw = done (typed.1, labelled) ∧
              Forall2 reads_slot labelled typed.2.
Proof.
  destruct raw as [k v], typed as [k' slots]. intros [Hk (ss & Hv & Hss)].
  simpl in *. subst k' v. apply mapM_Some_1 in Hss.
  exists (zip (slot_time <$> slots) ss). unfold read_series.
  cbn [fst snd py_iter]. rewrite follow_done.
  assert (Forall2 (λ v entry, read_slot v = done entry) ss
            (zip (slot_time <$> slots) ss)
          ∧ Forall2 reads_slot (zip (slot_time <$> slots) ss) slots) as [Hread Hrel].
  { induction Hss as [|v slot ss slots Hv _ [IH1 IH2]]; simpl; [by split; constructor|].
    split; (constructor; [|done]); [by apply read_slot_decoded|by split]. }
  by rewrite (each_done _ _ _ Hread), follow_done.
Qed.

Lemma collect_zones_decoded zone_guids (raws : list json) zones
    (d : list (string * json)) (d' : list (string * list Slot)) :
  Forall2 (λ raw zone, decode_zone raw = Some zone) raws zones →
  Forall2 holds_series d d' →
  ∃ collected,
    collect_zones zone_guids raws d = done collected ∧
    Forall2 holds_series collected (guid_data_order zone_guids zones d').
Proof.
  intros Hraws. revert d d'.
  induction Hraws as [|raw zone raws zones Hraw _ IH]; intros d d' Hd; simpl.
  - by exists d.
  - destruct (decode_zone_Some _ _ Hraw) as (a & b & slots & rest & -> & Hslots).
    cbn [collect_zones py_item lookup list_lookup]. rewrite follow_done.
    case_bool_decide as Hin.
    + rewrite follow_done. apply IH.
      apply (dict_set_related (λ v slots, ∃ ss, v = JArr ss ∧ mapM decode_slot ss = Some slots));
        [done|by exists slots].
    + by apply IH.
Qed.

Lemma guid_data_order_lookup zone_guids zones guid :
  dict_lookup guid (guid_data_order zone_guids zones [])
  = guid_data_map zone_guids zones !! guid.
Proof.
  unfold guid_data_order, guid_data_map.
  assert (dict_lookup guid ([] : list (string * list Slot))
          = (∅ : gmap string (list Slot)) !! guid) as Hstart by done.
  revert Hstart. generalize ([] : list (string * list Slot)).
  generalize (∅ : gmap string (list Slot)).
  induction zones as [|zone zones IH]; intros m0 d0 Hstart; simpl; [done|].
  apply IH. case_bool_decide; [|done].
  rewrite dict_lookup_set, lookup_insert.
  destruct (decide (zone_guid zone = guid)) as [->|Hne].
  - by rewrite bool_decide_eq_true_2.
  - rewrite bool_decide_eq_false_2 by congruence. done.
Qed.

Lemma guid_data_order_NoDup zone_guids zones (d : list (string * list Slot)) :
  NoDup d.*1 → NoDup (guid_data_order zone_guids zones d).*1.
Proof.
  unfold guid_data_order. revert d.
  induction zones as [|zone zones IH]; intros d Hd; simpl; [done|].
  apply IH. case_bool_decide; [by apply dict_set_NoDup|done].
Qed.

End decoded_body.

Section decoded_table.
Implicit Types (zone_guids : list string) (guid time : string).

Lemma Forall2_elem_of_l {X Y} (R : X → Y → Prop) (l : list X) (k : list Y) x :
  Forall2 R l k → x ∈ l → ∃ y, y ∈ k ∧ R x y.
Proof.
  induction 1 as [|x' y' l k Hxy _ IH]; [by intros ?%elem_of_nil|].
  intros [->|Hin]%elem_of_cons.
  - exists y'. split; [by left|done].
  - destruct (IH Hin) as (y & Hy & Hr). exists y. split; [by right|done].
Qed.

Lemma Forall2_elem_of_r {X Y} (R : X → Y → Prop) (l : list X) (k : list Y) y :
  Forall2 R l k → y ∈ k → ∃ x, x ∈ l ∧ R x y.
Proof.
  induction 1 as [|x' y' l k Hxy _ IH]; [by intros ?%elem_of_nil|].
  intros [->|Hin]%elem_of_cons.
  - exists x'. split; [by left|done].
  - destruct (IH Hin) as (x & Hx & Hr). exists x. split; [by right|done].
Qed.

Lemma series_labels_decoded (series : list (string * list (string * json)))
    (d' : list (string * list Slot)) (m : gmap string (list Slot)) :
  Forall2 reads_series series d' → NoDup d'.*1 →
  (∀ k, dict_lookup k d' = m !! k) →
  series_labels series = time_slots_set m.
Proof.
  intros Hrel Hnd Hm. apply set_eq. intros time. unfold series_labels.
  rewrite elem_of_list_to_set, list_elem_of_bind, elem_of_time_slots_set. split.
  - intros ([k lss] & Hlabel & Hentry). simpl in Hlabel.
    apply list_elem_of_fmap in Hlabel as ([label raw] & -> & Hls).
    destruct (Forall2_elem_of_l _ _ _ _ Hrel Hentry) as ([k' slots] & Hin & Hk & Hslots).
    simpl in *. subst k'.
    destruct (Forall2_elem_of_l _ _ _ _ Hslots Hls) as (slot & Hslot & Hl & _).
    simpl in Hl. exists k, slots, slot. split_and!; [|done|done].
    rewrite <- Hm. by apply dict_lookup_elem_of.
  - intros (k & slots & slot & Hk & Hslot & <-).
    rewrite <- Hm in Hk. apply dict_lookup_elem_of in Hk; [|done].
    destruct (Forall2_elem_of_r _ _ _ _ Hrel Hk) as ([k' lss] & Hin & Hk' & Hslots).
    simpl in *.
    destruct (Forall2_elem_of_r _ _ _ _ Hslots Hslot) as ([label raw] & Hls & Hl & _).
    simpl in Hl. exists (k', lss). split; [|done]. simpl.
    apply list_elem_of_fmap. by exists (label, raw).
Qed.

Lemma find_slot_decoded metric time (labelled : list (string * json))
    (slots : list Slot) (value : string) :
  Forall2 reads_slot labelled slots →
  match find_slot time labelled with
  | None => scan_slots metric time slots value = value
  | Some raw => ∃ slot, decode_slot raw = Some slot ∧
                        scan_slots metric time slots value
                        = str (metric_field metric slot)
  end.
Proof.
  induction 1 as [|[label raw] slot labelled slots [Hl Hraw] _ IH]; simpl in *; [done|].
  subst label. case_bool_decide.
  - exists slot. split; [done|]. by destruct metric.
  - exact IH.
Qed.

Lemma cell_json_decoded metric (series : list (string * list (string * json)))
    (d' : list (string * list Slot)) (m : gmap string (list Slot)) time guid :
  Forall2 reads_series series d' →
  (∀ k, dict_lookup k d' = m !! k) →
  cell_json metric series time guid = done (cell metric m time guid).
Proof.
  intros Hrel Hm. unfold cell_json, cell. rewrite <- Hm.
  pose proof (dict_lookup_related (Forall2 reads_slot) guid series d' Hrel) as Hlook.
  destruct Hlook as [labelled slots Hslots|]; simpl; [|done].
  pose proof (find_slot_decoded metric time labelled slots "0" Hslots) as Hfind.
  destruct (find_slot time labelled) as [raw|]; [|by rewrite Hfind].
  destruct Hfind as (slot & Hraw & ->).
  destruct (decode_slot_Some _ _ Hraw) as [rest ->].
  by destruct metric.
Qed.

Lemma foldl_add_rows (table : Table) (cells : list (list string)) :
  foldl add_row table cells
  = {| title := title table; columns := columns table;
       rows := rows table ++ cells |}.
Proof.
  revert table. induction cells as [|row cells IH]; intros table; simpl.
  - rewrite app_nil_r. by destruct table.
  - rewrite IH. simpl. by rewrite <- app_assoc.
Qed.

Lemma decode_visitors_Some (body : json) visitors :
  decode_visitors body = Some visitors →
  ∃ fields raws,
    body = JObj fields ∧
    fields !! "picker_date" = Some (JStr (picker_date visitors)) ∧
    fields !! "data" = Some (JArr raws) ∧
    mapM decode_zone raws = Some (data visitors) ∧
    fields !! "selected"
    = (λ zone_guids, JArr (JStr <$> zone_guids)) <$> selected visitors.
Proof.
  destruct body as [| | | | |fields]; try done. simpl.
  destruct (fields !! "picker_date") as [date|] eqn:Hdate; [simpl|done].
  destruct (decode_str date) as [date_text|] eqn:Htext; [simpl|done].
  apply decode_str_Some in Htext as ->.
  destruct (fields !! "selected") as [chosen|] eqn:Hsel.
  - destruct chosen as [| | | |items|]; try done.
    destruct (mapM decode_str items) as [zone_guids|] eqn:Hitems; [simpl|done].
    apply mapM_decode_str in Hitems as ->.
    destruct (fields !! "data") as [[| | | |raws|]|] eqn:Hdata; try done.
    destruct (mapM decode_zone raws) as [zones|] eqn:Hzones; [simpl|done].
    intros [= <-]. by exists fields, raws.
  - simpl. destruct (fields !! "data") as [[| | | |raws|]|] eqn:Hdata; try done.
    destruct (mapM decode_zone raws) as [zones|] eqn:Hzones; [simpl|done].
    intros [= <-]. by exists fields, raws.
Qed.

(** On a body of the documented shape the builder does what it does on the
    decoded response. *)
Lemma create_visitors_table_json_decoded reference (body : json) metric visitors :
  decode_visitors body = Some visitors →
  create_visitors_table_json reference body metric
  = Some (create_visitors_table reference visitors metric).
Proof.
  intros (fields & raws & -> & Hdate & Hdata & Hzones & Hsel)%decode_visitors_Some.
  unfold create_visitors_table_json. rewrite Hdate, Hsel. cbn [py_text].
  destruct (selected visitors) as [[|guid0 zone_guids]|] eqn:Hchosen;
    [by rewrite create_visitors_table_empty by (by rewrite Hchosen)| |
     by rewrite create_visitors_table_empty by (by rewrite Hchosen)].
  set (guids := guid0 :: zone_guids) in *.
  rewrite (create_visitors_table_built reference visitors metric guids Hchosen) by done.
  cbn [fmap option_fmap option_map default from_option id].
  assert (negb (py_truthy (JArr (JStr <$> guids))) = false) as -> by done.
  cbn [py_iter]. rewrite follow_done, each_py_key, follow_done.
  unfold py_getitem. rewrite Hdata. change (Some (mret (JArr raws))) with (done (JArr raws)).
  rewrite follow_done. cbn [py_iter]. rewrite follow_done.
  apply mapM_Some_1 in Hzones.
  destruct (collect_zones_decoded guids raws (data visitors) [] [] Hzones)
    as (collected & -> & Hcollected); [constructor|].
  rewrite follow_done.
  assert (∃ series, each read_series collected = done series ∧
                    Forall2 reads_series series
                      (guid_data_order guids (data visitors) []))
    as (series & -> & Hseries).
  { clear -Hcollected.
    induction Hcollected as [|raw typed d d' Hraw _ (series & Hs & Hrel)].
    - exists []. by split; [|constructor].
    - destruct (read_series_decoded raw typed Hraw) as (labelled & Hread & Hlab).
      exists ((typed.1, labelled) :: series). split.
      + cbn [each]. by rewrite Hread, follow_done, Hs, follow_done.
      + constructor; [by split|done]. }
  rewrite follow_done.
  pose proof (guid_data_order_lookup guids (data visitors)) as Hlookup.
  rewrite (series_labels_decoded series _ (guid_data_map guids (data visitors)) Hseries);
    [|apply guid_data_order_NoDup; constructor|done].
  rewrite (each_done_fmap _
             (λ time, time :: (cell metric (guid_data_map guids (data visitors)) time
                               <$> guids))).
  2: { intros time _. unfold row_json.
       rewrite (each_done_fmap _ (cell metric (guid_data_map guids (data visitors)) time)).
       - by rewrite follow_done.
       - intros guid _. by apply (cell_json_decoded _ _ _ _ _ _ Hseries). }
  rewrite follow_done. unfold done, mret, Run_ret, run_ret.
  rewrite foldl_add_column, foldl_add_rows. done.
Qed.

End decoded_table.

Section body_runs.
Implicit Types (fields : gmap string json) (reference : list RefRow).

Lemma builder_json_no_date reference fields metric :
  fields !! "picker_date" = None →
  create_visitors_table_json reference (JObj fields) metric
  = Some ([], Raise (KeyError "picker_date")).
Proof. intros Hdate. unfold create_visitors_table_json. by rewrite Hdate. Qed.

Lemma builder_json_empty_selection reference fields metric date :
  fields !! "picker_date" = Some (JStr date) →
  fields !! "selected" = Some (JArr []) ∨ fields !! "selected" = None →
  create_visitors_table_json reference (JObj fields) metric
  = Some ([empty_selection], SystemExit 1).
Proof.
  intros Hdate Hsel. unfold create_visitors_table_json. rewrite Hdate.
  cbn [py_text]. by destruct Hsel as [->| ->].
Qed.

Lemma main_json_empty_selection reference fields metric date :
  fields !! "picker_date" = Some (JStr date) →
  fields !! "selected" = Some (JArr []) →
  main_report_json reference (JObj fields) metric
  = Some ([empty_selection], SystemExit 1).
Proof.
  intros Hdate Hsel. unfold main_report_json, py_getitem. rewrite Hsel.
  change (Some (mret (JArr []))) with (done (JArr [])).
  rewrite follow_done. cbn [py_iter]. rewrite follow_done. cbn [each].
  rewrite follow_done. cbn [list_to_set foldr].
  rewrite filter_empty_L; [|apply _].
  rewrite bool_decide_eq_true_2 by done.
  change (Some (mret ())) with (done ()). rewrite follow_done.
  rewrite (builder_json_empty_selection reference fields metric date Hdate); [done|].
  by left.
Qed.

Lemma main_json_no_date reference fields metric :
  fields !! "picker_date" = None →
  fields !! "selected" = Some (JArr []) →
  main_report_json reference (JObj fields) metric
  = Some ([], Raise (KeyError "picker_date")).
Proof.
  intros Hdate Hsel. unfold main_report_json, py_getitem. rewrite Hsel.
  change (Some (mret (JArr []))) with (done (JArr [])).
  rewrite follow_done. cbn [py_iter]. rewrite follow_done. cbn [each].
  rewrite follow_done. cbn [list_to_set foldr].
  rewrite filter_empty_L; [|apply _].
  rewrite bool_decide_eq_true_2 by done.
  change (Some (mret ())) with (done ()). rewrite follow_done.
  by rewrite (builder_json_no_date reference fields metric Hdate).
Qed.

(** On a body of the documented shape main does what it does on the decoded
    response. *)
Lemma main_report_json_decoded reference (body : json) metric visitors :
  decode_visitors body = Some visitors →
  main_report_json reference body metric
  = Some (main_report reference visitors metric).
Proof.
  intros Hbody.
  pose proof (create_visitors_table_json_decoded reference body metric visitors Hbody)
    as Hbuilder.
  destruct (decode_visitors_Some _ _ Hbody)
    as (fields & raws & -> & Hdate & Hdata & Hzones & Hsel).
  unfold main_report_json, main_report, py_getitem. rewrite Hsel, Hbuilder.
  destruct (selected visitors) as [zone_guids|]; [|done].
  cbn [fmap option_fmap option_map].
  change (Some (mret (JArr (JStr <$> zone_guids))))
    with (done (JArr (JStr <$> zone_guids))).
  rewrite follow_done. cbn [py_iter]. rewrite follow_done, each_py_key, follow_done.
  unfold mbind, mret, Run_bind, Run_ret, run_ret. cbn [run_bind app].
  destruct (create_visitors_table reference visitors metric) as [tr [table|code|e]];
    case_bool_decide; reflexivity.
Qed.

Lemma decode_encode_slots (slots : list Slot) :
  mapM decode_slot (encode_slot <$> slots) = Some slots.
Proof.
  apply mapM_Some_2, Forall2_fmap_l, Forall_Forall2_diag, Forall_forall.
  by intros [time entries exits] _.
Qed.

Lemma decode_encode_zones (zones : list Zone) :
  mapM decode_zone (encode_zone <$> zones) = Some zones.
Proof.
  apply mapM_Some_2, Forall2_fmap_l, Forall_Forall2_diag, Forall_forall.
  intros [guid slots] _. unfold encode_zone, decode_zone. simpl.
  by rewrite decode_encode_slots.
Qed.

Lemma decode_encode_strs (l : list string) : mapM decode_str (JStr <$> l) = Some l.
Proof.
  apply mapM_Some_2, Forall2_fmap_l, Forall_Forall2_diag, Forall_forall. done.
Qed.

(** The document of a response decodes to that response. *)
Lemma decode_encode_visitors visitors :
  decode_visitors (encode_visitors visitors) = Some visitors.
Proof.
  destruct visitors as [date chosen zones]. unfold encode_visitors, decode_visitors.
  simpl. destruct chosen as [zone_guids|].
  - rewrite (lookup_insert_ne _ "selected" "picker_date") by done.
    rewrite lookup_insert_eq. simpl. rewrite lookup_insert_eq. simpl.
    rewrite decode_encode_strs. simpl.
    rewrite (lookup_insert_ne _ "selected" "data") by done.
    rewrite (lookup_insert_ne _ "picker_date" "data") by done.
    rewrite lookup_insert_eq. by rewrite decode_encode_zones.
  - rewrite lookup_insert_eq. simpl.
    rewrite (lookup_insert_ne _ "picker_date" "selected") by done.
    rewrite (lookup_insert_ne _ "data" "selected") by done.
    rewrite lookup_empty. simpl.
    rewrite (lookup_insert_ne _ "picker_date" "data") by done.
    rewrite lookup_insert_eq. by rewrite decode_encode_zones.
Qed.

End body_runs.

(** C6 (as the code has it).  When the response carries a picker_date and
    its [selected] is the empty list, the builder logs one critical line and
    ends the process with status 1, whatever [data] holds; main, which prints
    only what the builder returns, then leaves that one line and prints no
    table.  For every response of the documented shape with a non-empty
    [selected] the builder leaves no event (no I/O, no log line) and returns
    a table.  The builder does not check that shape: on a body without
    picker_date it raises KeyError where it makes the title, before it looks
    at [selected]. *)
Theorem C6_fatal_paths reference metric :
  (∀ fields date,
     fields !! "picker_date" = Some (JStr date) →
     fields !! "selected" = Some (JArr []) →
     create_visitors_table_json reference (JObj fields) metric
     = Some ([empty_selection], SystemExit 1) ∧
     main_report_json reference (JObj fields) metric
     = Some ([empty_selection], SystemExit 1)) ∧
  (∀ body visitors zone_guids,
     decode_visitors body = Some visitors →
     selected visitors = Some zone_guids → zone_guids ≠ [] →
     ∃ table,
       create_visitors_table_json reference body metric = Some ([], Return table)) ∧
  (∀ fields,
     fields !! "picker_date" = None →
     create_visitors_table_json reference (JObj fields) metric
     = Some ([], Raise (KeyError "picker_date"))).
Proof.
  split_and!.
  - intros fields date Hdate Hsel. split.
    + apply (builder_json_empty_selection reference fields metric date Hdate).
      by left.
    + by apply (main_json_empty_selection reference fields metric date).
  - intros body visitors zone_guids Hbody Hsel Hne.
    rewrite (create_visitors_table_json_decoded reference body metric visitors Hbody).
    rewrite (create_visitors_table_built reference visitors metric zone_guids Hsel Hne).
    by eexists.
  - intros fields. apply builder_json_no_date.
Qed.

Lemma C6_fatal_paths_witness :
  (create_visitors_table_json sample_reference
     (JObj (<["picker_date" := JStr "12.06.2020"]> (<["selected" := JArr []]> ∅)))
     ENTRIES
   = Some ([empty_selection], SystemExit 1) ∧
   main_report_json sample_reference
     (JObj (<["picker_date" := JStr "12.06.2020"]> (<["selected" := JArr []]> ∅)))
     ENTRIES
   = Some ([empty_selection], SystemExit 1)) ∧
  (∃ table,
     create_visitors_table_json sample_reference (encode_visitors sample_visitors) ENTRIES
     = Some ([], Return table)) ∧
  create_visitors_table_json sample_reference body_without_date ENTRIES
  = Some ([], Raise (KeyError "picker_date")).
Proof.
  split; [|split].
  - apply (proj1 (C6_fatal_paths sample_reference ENTRIES)
             (<["picker_date" := JStr "12.06.2020"]> (<["selected" := JArr []]> ∅))
             "12.06.2020"); reflexivity.
  - apply (proj1 (proj2 (C6_fatal_paths sample_reference ENTRIES))
             (encode_visitors sample_visitors) sample_visitors ["B"; "X"; "A"]);
      [vm_compute; reflexivity | reflexivity | discriminate].
  - apply (proj2 (proj2 (C6_fatal_paths sample_reference ENTRIES))
             (<["selected" := JArr []]>
                (<["data" := JArr [encode_zone sample_zone]]> ∅))).
    reflexivity.
Defined.

(** C6 as stated fails on bodies the fetcher returns.  With an empty
    [selected] and no picker_date the builder, and main with it, stops on a
    KeyError: no critical line, no exit of its own.  With a non-empty
    [selected] and a record of one item it stops on an IndexError. *)
Lemma C6_unchecked_shape_raises :
  (outcome (fetch_visitors_data (server_replying body_without_date)
              "127.0.0.1:9006" "12.06.2020" ["A"]) = Return body_without_date ∧
   data_of body_without_date = Some (JArr [encode_zone sample_zone]) ∧
   create_visitors_table_json sample_reference body_without_date ENTRIES
   = Some ([], Raise (KeyError "picker_date")) ∧
   main_report_json sample_reference body_without_date ENTRIES
   = Some ([], Raise (KeyError "picker_date"))) ∧
  (outcome (fetch_visitors_data (server_replying body_short_record)
              "127.0.0.1:9006" "12.06.2020" ["A"]) = Return body_short_record ∧
   create_visitors_table_json sample_reference body_short_record ENTRIES
   = Some ([], Raise IndexError)).
Proof. split; split_and!; vm_compute; reflexivity. Qed.
